(** * embec software timers: a shallow embedding of [swtimersys.c] and [swtimer.c]

    The development follows the two translation units of [src/swtimer]:

    - [Swtimersys] embeds the software timer system ([swtimersys.h],
      [swtimersys.c]): one hardware tick counter, either advanced by
      [swtimersys_tick] or polled through a callback;
    - [Swtimer] embeds the software timer ([swtimer.h], [swtimer.c]): the
      start tick, the elapsed-tick computation with wrap-around, the
      conversion to a resolution of time and the starvation tracking.

    Conventions.  A [uint64_t] is a [Z] and every operation that can leave
    the range [0, 2^64) is followed by [wrap64].  A timer system is a shared
    object reached through a pointer, so timer systems live in a store
    (a [gmap] from addresses to structures) and a timer holds the address.
    A timer structure is owned by its caller and is passed and returned by
    value, so [swtimer_p] is the address of an object and [assert(swtimer_p)]
    holds.  [assert] is active (the build without [NDEBUG]); a failed
    assertion ends the run with [Abort].  The starvation tracking is
    compiled in (none of the disabling macros is defined).  A call that
    returns is [Ret]; every function here is total. *)

From Stdlib Require Import ZArith Lia List Bool.
From stdpp Require Import base option gmap.

Local Open Scope Z_scope.

(** ** Machine integers *)

Definition UINT64_MAX : Z := 2 ^ 64 - 1.

Definition wrap64 (x : Z) : Z := x mod 2 ^ 64.

(** ** Assertions and the result of a call *)

(** The assertions of the two translation units, named after the asserted
    expression; [InvalidPointer] is the dereference of a non-null pointer at
    which no timer system lives. *)
Inductive failure : Type :=
| Assert_swtimersys_p
| Assert_tick_duration_ns
| Assert_timer_width_bits
| Assert_tick_count
| Assert_not_starving
| InvalidPointer.

Inductive result (A : Type) : Type :=
| Ret (a : A)
| Abort (f : failure).

Arguments Ret {A} a.
Arguments Abort {A} f.

Definition bind {A B : Type} (r : result A) (k : A -> result B) : result B :=
  match r with
  | Ret a => k a
  | Abort f => Abort f
  end.

Definition assert (b : bool) (f : failure) : result unit :=
  if b then Ret tt else Abort f.

Notation "'let*' x ':=' r 'in' k" := (bind r (fun x => k))
  (at level 10, x name, r at level 100, k at level 200).
Notation "'do' r 'in' k" := (bind r (fun _ => k))
  (at level 10, r at level 100, k at level 200).

(** ** Pointers and the external hardware *)

(** A [void *]; [NULL] is address 0. *)
Definition void_ptr : Type := Z.
Definition NULL : void_ptr := 0.

(** The hardware a poll callback reads: memory-mapped registers, by
    address.  The registers change between two calls, so every operation
    that may poll takes the registers as they are at the time of the call. *)
Definition hw_regs : Type := Z -> Z.

(** * swtimersys.c *)

Module Swtimersys.

(** The callback type [swtimersys_poll_callback_t]: from the user data
    pointer to the current hardware timer value; the hardware it reads is
    made explicit. *)
Definition swtimersys_poll_callback_t : Type := void_ptr -> hw_regs -> Z.

(** [struct swtimersys_s]; a null [poll_cb] is [None]. *)
Record swtimersys_t : Type := mk_swtimersys {
  poll_cb : option swtimersys_poll_callback_t;
  tick_counter : Z;
  tick_duration_ns : Z;
  timer_width_bits : Z;
  timer_mask : Z;
  user_data_p : void_ptr
}.

(** Field assignments [swtimersys_p->f = v]. *)
Definition set_timer_mask (v : Z) (s : swtimersys_t) : swtimersys_t :=
  mk_swtimersys (poll_cb s) (tick_counter s) (tick_duration_ns s)
                (timer_width_bits s) v (user_data_p s).
Definition set_tick_counter (v : Z) (s : swtimersys_t) : swtimersys_t :=
  mk_swtimersys (poll_cb s) v (tick_duration_ns s)
                (timer_width_bits s) (timer_mask s) (user_data_p s).
Definition set_tick_duration_ns (v : Z) (s : swtimersys_t) : swtimersys_t :=
  mk_swtimersys (poll_cb s) (tick_counter s) v
                (timer_width_bits s) (timer_mask s) (user_data_p s).
Definition set_poll_cb (v : option swtimersys_poll_callback_t)
    (s : swtimersys_t) : swtimersys_t :=
  mk_swtimersys v (tick_counter s) (tick_duration_ns s)
                (timer_width_bits s) (timer_mask s) (user_data_p s).

(** The timer systems of the program, by address. *)
Abbreviation store := (gmap Z swtimersys_t).

(** [*swtimersys_p] for a non-null pointer. *)
Definition deref (m : store) (p : Z) : result swtimersys_t :=
  match m !! p with
  | Some s => Ret s
  | None => Abort InvalidPointer
  end.

Definition TIMER_BITS_MIN : Z := 2.
Definition TIMER_BITS_MAX : Z := 64.

(** The loop of [create_mask]: [bits_left] more rounds of
    [mask <<= 1; mask |= 1] on a [uint64_t]. *)
Fixpoint create_mask_loop (bits_left : nat) (mask : Z) : Z :=
  match bits_left with
  | O => mask
  | S n => create_mask_loop n (Z.lor (wrap64 (Z.shiftl mask 1)) 1)
  end.

(** [uint64_t create_mask(const uint8_t bits)]. *)
Definition create_mask (bits : Z) : Z :=
  create_mask_loop (Z.to_nat bits) 0.

(** [swtimersys_init], as defined in [swtimersys.c]: four parameters.  The
    structure at [swtimersys_p] exists before the call with whatever it
    holds; the fields the body does not assign ([timer_width_bits],
    [user_data_p]) keep that content. *)
Definition swtimersys_init (m : store) (swtimersys_p : Z)
    (tick_duration_ns : Z) (timer_width_bits : Z)
    (poll_cb : option swtimersys_poll_callback_t) : result store :=
  do assert (negb (swtimersys_p =? NULL)) Assert_swtimersys_p in
  do assert (negb (tick_duration_ns =? 0)) Assert_tick_duration_ns in
  do assert ((TIMER_BITS_MIN <=? timer_width_bits)
          && (timer_width_bits <=? TIMER_BITS_MAX)) Assert_timer_width_bits in
  let* s := deref m swtimersys_p in
  let s := set_timer_mask (create_mask timer_width_bits) s in
  let s := set_tick_counter 0 s in
  let s := set_tick_duration_ns tick_duration_ns s in
  let s := set_poll_cb poll_cb s in
  Ret (<[swtimersys_p := s]> m).

(** [swtimersys_tick]. *)
Definition swtimersys_tick (m : store) (swtimersys_p : Z) (tick_count : Z)
    : result store :=
  do assert (negb (swtimersys_p =? NULL)) Assert_swtimersys_p in
  do assert (negb (tick_count =? 0)) Assert_tick_count in
  let* s := deref m swtimersys_p in
  let s := set_tick_counter (wrap64 (tick_counter s + tick_count)) s in
  let s := set_tick_counter (Z.land (tick_counter s) (timer_mask s)) s in
  Ret (<[swtimersys_p := s]> m).

(** [swtimersys_poll_timer]; the callback returns a [uint64_t]. *)
Definition swtimersys_poll_timer (m : store) (hw : hw_regs) (swtimersys_p : Z)
    : result Z :=
  do assert (negb (swtimersys_p =? NULL)) Assert_swtimersys_p in
  let* s := deref m swtimersys_p in
  match poll_cb s with
  | Some cb => Ret (wrap64 (cb (user_data_p s) hw))
  | None => Ret (tick_counter s)
  end.

(** [swtimersys_get_tick_duration_ns]. *)
Definition swtimersys_get_tick_duration_ns (m : store) (swtimersys_p : Z)
    : result Z :=
  do assert (negb (swtimersys_p =? NULL)) Assert_swtimersys_p in
  let* s := deref m swtimersys_p in
  Ret (tick_duration_ns s).

(** [swtimersys_get_timer_mask]. *)
Definition swtimersys_get_timer_mask (m : store) (swtimersys_p : Z)
    : result Z :=
  do assert (negb (swtimersys_p =? NULL)) Assert_swtimersys_p in
  let* s := deref m swtimersys_p in
  Ret (timer_mask s).

End Swtimersys.

(** * swtimer.c *)

Module Swtimer.

Definition NS_IN_ONE_US : Z := 1000.
Definition NS_IN_ONE_MS : Z := 1000000.
Definition NS_IN_ONE_SECOND : Z := 1000000000.

(** [enum swtimer_resolution_e].  A C enumeration is an integer type, and a
    caller can pass a value that is none of the enumerators: a resolution is
    the integer. *)
Definition swtimer_resolution_t : Type := Z.
Definition SWTIMER_TIMERTICK : swtimer_resolution_t := 0.
Definition SWTIMER_NS : swtimer_resolution_t := 1.
Definition SWTIMER_US : swtimer_resolution_t := 2.
Definition SWTIMER_MS : swtimer_resolution_t := 3.
Definition SWTIMER_S : swtimer_resolution_t := 4.

(** [struct swtimer_starvation_tracking_s]. *)
Record swtimer_starvation_tracking_t : Type := mk_tracking {
  invocation_limit : Z;
  invocation_count : Z;
  last_tick_count : Z
}.

(** [struct swtimer_s]. *)
Record swtimer_t : Type := mk_swtimer {
  swtimersys_p : Z;
  start_tick_count : Z;
  tick_duration_ns : Z;
  timer_mask : Z;
  starvation_tracking : swtimer_starvation_tracking_t
}.

(** Field assignments. *)
Definition set_invocation_limit (v : Z) (st : swtimer_starvation_tracking_t) :=
  mk_tracking v (invocation_count st) (last_tick_count st).
Definition set_invocation_count (v : Z) (st : swtimer_starvation_tracking_t) :=
  mk_tracking (invocation_limit st) v (last_tick_count st).
Definition set_last_tick_count (v : Z) (st : swtimer_starvation_tracking_t) :=
  mk_tracking (invocation_limit st) (invocation_count st) v.

Definition set_swtimersys_p (v : Z) (t : swtimer_t) : swtimer_t :=
  mk_swtimer v (start_tick_count t) (tick_duration_ns t) (timer_mask t)
             (starvation_tracking t).
Definition set_start_tick_count (v : Z) (t : swtimer_t) : swtimer_t :=
  mk_swtimer (swtimersys_p t) v (tick_duration_ns t) (timer_mask t)
             (starvation_tracking t).
Definition set_tick_duration_ns (v : Z) (t : swtimer_t) : swtimer_t :=
  mk_swtimer (swtimersys_p t) (start_tick_count t) v (timer_mask t)
             (starvation_tracking t).
Definition set_timer_mask (v : Z) (t : swtimer_t) : swtimer_t :=
  mk_swtimer (swtimersys_p t) (start_tick_count t) (tick_duration_ns t) v
             (starvation_tracking t).
Definition set_starvation_tracking (v : swtimer_starvation_tracking_t)
    (t : swtimer_t) : swtimer_t :=
  mk_swtimer (swtimersys_p t) (start_tick_count t) (tick_duration_ns t)
             (timer_mask t) v.

(** [init_starvation_tracking]: one assignment, to [last_tick_count]. *)
Definition init_starvation_tracking (st : swtimer_starvation_tracking_t)
    (initial_tick_count : Z) : swtimer_starvation_tracking_t :=
  set_last_tick_count initial_tick_count st.

(** [is_starvation_tracking_enabled]. *)
Definition is_starvation_tracking_enabled (st : swtimer_starvation_tracking_t)
    : bool :=
  negb (0 =? invocation_limit st).

(** [manage_invocation_count]. *)
Definition manage_invocation_count (st : swtimer_starvation_tracking_t)
    (tick_count : Z) : swtimer_starvation_tracking_t :=
  let st :=
    if last_tick_count st =? tick_count then
      if invocation_count st <? UINT64_MAX
      then set_invocation_count (invocation_count st + 1) st
      else st
    else set_invocation_count 0 st in
  set_last_tick_count tick_count st.

(** [is_timer_starving]: the answer and the tracking data as the call
    leaves them. *)
Definition is_timer_starving (st : swtimer_starvation_tracking_t)
    (tick_count : Z) : bool * swtimer_starvation_tracking_t :=
  if negb (is_starvation_tracking_enabled st) then (false, st)
  else
    let st := manage_invocation_count st tick_count in
    (invocation_count st >=? invocation_limit st, st).

(** [get_elapsed_ticks], in [uint64_t] arithmetic. *)
Definition get_elapsed_ticks (timer_mask start_tick_count tick_count : Z) : Z :=
  if start_tick_count <=? tick_count
  then tick_count - start_tick_count
  else wrap64 (wrap64 (wrap64 (timer_mask - start_tick_count) + tick_count) + 1).

(** [get_time_for_tick_count]: the [switch] on the resolution. *)
Definition get_time_for_tick_count (tick_duration_ns tick_count : Z)
    (resolution : swtimer_resolution_t) : Z :=
  if resolution =? SWTIMER_NS then
    wrap64 (tick_count * tick_duration_ns)
  else if resolution =? SWTIMER_US then
    wrap64 (tick_count * tick_duration_ns) / NS_IN_ONE_US
  else if resolution =? SWTIMER_MS then
    wrap64 (tick_count * tick_duration_ns) / NS_IN_ONE_MS
  else if resolution =? SWTIMER_S then
    wrap64 (tick_count * tick_duration_ns) / NS_IN_ONE_SECOND
  else
    (* case SWTIMER_TIMERTICK: default: *)
    tick_count.

(** [swtimer_init]: [memset] to zero, then the assignments. *)
Definition swtimer_init (m : Swtimersys.store) (swtimersys_p : Z)
    (invocation_limit : Z) : result swtimer_t :=
  do assert (negb (swtimersys_p =? NULL)) Assert_swtimersys_p in
  let t := mk_swtimer 0 0 0 0 (mk_tracking 0 0 0) in
  let t := set_swtimersys_p swtimersys_p t in
  let* d := Swtimersys.swtimersys_get_tick_duration_ns m swtimersys_p in
  let t := set_tick_duration_ns d t in
  let* mask := Swtimersys.swtimersys_get_timer_mask m swtimersys_p in
  let t := set_timer_mask mask t in
  Ret (set_starvation_tracking
         (set_invocation_limit invocation_limit (starvation_tracking t)) t).

(** [swtimer_start]. *)
Definition swtimer_start (m : Swtimersys.store) (hw : hw_regs) (t : swtimer_t)
    : result swtimer_t :=
  let* tick := Swtimersys.swtimersys_poll_timer m hw (swtimersys_p t) in
  let t := set_start_tick_count tick t in
  Ret (set_starvation_tracking
         (init_starvation_tracking (starvation_tracking t) (start_tick_count t))
         t).

(** [swtimer_get_time]: the time, and the timer with the starvation tracking
    data as [is_timer_starving] left them.  The local [tick_count] first
    holds the polled tick count and is then overwritten with the elapsed
    ticks; that second value is what [is_timer_starving] receives. *)
Definition swtimer_get_time (m : Swtimersys.store) (hw : hw_regs)
    (t : swtimer_t) (resolution : swtimer_resolution_t)
    : result (Z * swtimer_t) :=
  let* tick_count := Swtimersys.swtimersys_poll_timer m hw (swtimersys_p t) in
  let tick_count :=
    get_elapsed_ticks (timer_mask t) (start_tick_count t) tick_count in
  let '(starving, st) := is_timer_starving (starvation_tracking t) tick_count in
  do assert (negb starving) Assert_not_starving in
  Ret (get_time_for_tick_count (tick_duration_ns t) tick_count resolution,
       set_starvation_tracking st t).

End Swtimer.

(** * Programs over one timer and the timer systems *)

(** A call of the public interface on the timer under study.  The calls that
    poll carry the hardware registers as they are when the call is made. *)
Inductive call : Type :=
| Call_start (hw : hw_regs)
| Call_get_time (hw : hw_regs) (resolution : Swtimer.swtimer_resolution_t)
| Call_tick (swtimersys_p : Z) (tick_count : Z).

(** One call, on the store of timer systems and the timer. *)
Definition exec_call (c : call) (st : Swtimersys.store * Swtimer.swtimer_t)
    : result (Swtimersys.store * Swtimer.swtimer_t) :=
  match c with
  | Call_start hw =>
      let* t := Swtimer.swtimer_start (fst st) hw (snd st) in
      Ret (fst st, t)
  | Call_get_time hw resolution =>
      let* r := Swtimer.swtimer_get_time (fst st) hw (snd st) resolution in
      Ret (fst st, snd r)
  | Call_tick p tick_count =>
      let* m := Swtimersys.swtimersys_tick (fst st) p tick_count in
      Ret (m, snd st)
  end.

(** A sequence of calls; the first failed assertion ends the run. *)
Fixpoint exec (cs : list call) (st : Swtimersys.store * Swtimer.swtimer_t)
    : result (Swtimersys.store * Swtimer.swtimer_t) :=
  match cs with
  | [] => Ret st
  | c :: cs' => let* st' := exec_call c st in exec cs' st'
  end.

(** A sequence of [swtimersys_tick] calls on one timer system. *)
Fixpoint tick_all (deltas : list Z) (m : Swtimersys.store) (p : Z)
    : result Swtimersys.store :=
  match deltas with
  | [] => Ret m
  | d :: ds => let* m' := Swtimersys.swtimersys_tick m p d in tick_all ds m' p
  end.

(** * Properties and fixtures *)

(** The invariant of a timer system: the counter is within the mask. *)
Definition counter_in_mask (s : Swtimersys.swtimersys_t) : Prop :=
  0 <= Swtimersys.tick_counter s <= Swtimersys.timer_mask s.

(** The timer system [swtimersys_tick] leaves behind: the counter plus the
    tick count, wrapped to 64 bits, under the mask. *)
Definition ticked (s : Swtimersys.swtimersys_t) (tick_count : Z)
    : Swtimersys.swtimersys_t :=
  Swtimersys.set_tick_counter
    (Z.land (wrap64 (Swtimersys.tick_counter s + tick_count))
            (Swtimersys.timer_mask s)) s.

(** Whether a run ended on the starvation assertion of
    [swtimer_get_time]. *)
Definition starvation_signalled {A : Type} (r : result A) : bool :=
  match r with
  | Abort Assert_not_starving => true
  | _ => false
  end.

(** A timer system structure in zero-initialised storage. *)
Definition zeroed_swtimersys : Swtimersys.swtimersys_t :=
  Swtimersys.mk_swtimersys None 0 0 0 0 NULL.

(** The address of the timer system of the examples. *)
Definition sys_addr : Z := 4096.

(** A store holding one, not yet initialised, timer system. *)
Definition fresh_store : Swtimersys.store := {[ sys_addr := zeroed_swtimersys ]}.

(** A poll callback that reads the free-running counter register whose
    address is the user data pointer. *)
Definition poll_register : Swtimersys.swtimersys_poll_callback_t :=
  fun user_data_p hw => hw user_data_p.

(** Hardware whose every counter register reads [v]. *)
Definition regs_at (v : Z) : hw_regs := fun _ => v.

(** Hardware with one free-running counter per address, the counter at
    address [a] reading [a + 100]. *)
Definition regs_by_address : hw_regs := fun a => a + 100.

(** Configure the timer system at [sys_addr] of [fresh_store] and bind a
    timer to it, then run the calls [cs] on that timer. *)
Definition run_timer (tick_duration_ns timer_width_bits : Z)
    (poll_cb : option Swtimersys.swtimersys_poll_callback_t)
    (invocation_limit : Z) (cs : list call)
    : result (Swtimersys.store * Swtimer.swtimer_t) :=
  let* m := Swtimersys.swtimersys_init fresh_store sys_addr tick_duration_ns
              timer_width_bits poll_cb in
  let* t := Swtimer.swtimer_init m sys_addr invocation_limit in
  exec cs (m, t).

(** The starvation tracking data a run ends with. *)
Definition final_tracking (r : result (Swtimersys.store * Swtimer.swtimer_t))
    : option Swtimer.swtimer_starvation_tracking_t :=
  match r with
  | Ret st => Some (Swtimer.starvation_tracking (snd st))
  | Abort _ => None
  end.

(** The timer system of the examples once configured: tick duration 1000 ns,
    8 bits, no poll callback; and a timer bound to it with invocation limit
    [limit]. *)
Definition configured_store : Swtimersys.store :=
  <[sys_addr := Swtimersys.mk_swtimersys None 0 1000 0 255 NULL]> fresh_store.

Definition bound_timer (limit : Z) : Swtimer.swtimer_t :=
  Swtimer.mk_swtimer sys_addr 0 1000 255 (Swtimer.mk_tracking limit 0 0).

(** A query of the elapsed ticks; the registers are not read by a timer
    system without poll callback. *)
Definition query : call := Call_get_time (regs_at 0) Swtimer.SWTIMER_TIMERTICK.
Definition start : call := Call_start (regs_at 0).

Definition advance (tick_count : Z) : call := Call_tick sys_addr tick_count.

(** The tick a poll of the timer system of the examples returns once a run
    has ended. *)
Definition final_poll (r : result (Swtimersys.store * Swtimer.swtimer_t))
    : result Z :=
  let* st := r in Swtimersys.swtimersys_poll_timer (fst st) (regs_at 0) sys_addr.

(** The timer [t] is bound to a timer system without poll callback whose
    tick counter stands at [s]: as long as no tick arrives, every poll
    returns [s]. *)
Definition static_at (m : Swtimersys.store) (t : Swtimer.swtimer_t) (s : Z)
    : Prop :=
  Swtimer.swtimersys_p t <> NULL /\
  exists sys, m !! Swtimer.swtimersys_p t = Some sys /\
              Swtimersys.poll_cb sys = None /\
              Swtimersys.tick_counter sys = s.

(** [n] queries in a row. *)
Definition queries (n : nat) : list call := repeat query n.

(** The total of the tick counts of a sequence of [swtimersys_tick] calls. *)
Definition sum_ticks (deltas : list Z) : Z := fold_right Z.add 0 deltas.

(** A call whose own preconditions hold in a store with the timer systems
    [m]: a tick names a timer system that exists and advances it by a
    non-zero count. *)
Definition call_allowed (m : Swtimersys.store) (c : call) : Prop :=
  match c with
  | Call_tick q n => q <> NULL /\ n <> 0 /\ is_Some (m !! q)
  | _ => True
  end.

(** The fields of a timer that [swtimer_init] sets for good: the binding,
    the tick duration, the mask and the invocation limit. *)
Definition same_binding (t t' : Swtimer.swtimer_t) : Prop :=
  Swtimer.swtimersys_p t' = Swtimer.swtimersys_p t /\
  Swtimer.tick_duration_ns t' = Swtimer.tick_duration_ns t /\
  Swtimer.timer_mask t' = Swtimer.timer_mask t /\
  Swtimer.invocation_limit (Swtimer.starvation_tracking t')
    = Swtimer.invocation_limit (Swtimer.starvation_tracking t).

(** The timer [t] is bound to a timer system that exists in [m]. *)
Definition bound_in (m : Swtimersys.store) (t : Swtimer.swtimer_t) : Prop :=
  Swtimer.swtimersys_p t <> NULL /\ is_Some (m !! Swtimer.swtimersys_p t).


(** The call [c] is a query, at any resolution, made while a poll of the
    timer system at [p] returns the tick [s]; the timer system may have a
    poll callback or not. *)
Definition query_at (m : Swtimersys.store) (p s : Z) (c : call) : Prop :=
  match c with
  | Call_get_time hw _ => Swtimersys.swtimersys_poll_timer m hw p = Ret s
  | _ => False
  end.

(** * Machine arithmetic *)

Lemma wrap64_small (x : Z) : 0 <= x < 2 ^ 64 -> wrap64 x = x.
Proof. intros H. unfold wrap64. now apply Z.mod_small. Qed.

Lemma wrap64_range (x : Z) : 0 <= wrap64 x < 2 ^ 64.
Proof. unfold wrap64. apply Z.mod_pos_bound. lia. Qed.

Lemma pow2_le_64 (w : Z) : 0 <= w <= 64 -> 0 < 2 ^ w <= 2 ^ 64.
Proof.
  intros H. split.
  - apply Z.pow_pos_nonneg; lia.
  - apply Z.pow_le_mono_r; lia.
Qed.

Lemma lor_even_1 (a : Z) : Z.lor (2 * a) 1 = 2 * a + 1.
Proof.
  symmetry. apply Z.add_nocarry_lor.
  change 1 with (Z.ones 1) at 1. rewrite Z.land_ones by lia.
  change (2 ^ 1) with 2. rewrite Z.mul_comm. apply Z.mod_mul. lia.
Qed.

(** * The mask *)

(** One round of the loop of [create_mask] turns [k] low bits into [k + 1]. *)
Lemma create_mask_round (k : Z) :
  0 <= k < 64 ->
  Z.lor (wrap64 (Z.shiftl (2 ^ k - 1) 1)) 1 = 2 ^ (k + 1) - 1.
Proof.
  intros Hk.
  assert (Hp : 0 < 2 ^ k <= 2 ^ 63).
  { split; [apply Z.pow_pos_nonneg; lia | apply Z.pow_le_mono_r; lia]. }
  rewrite Z.shiftl_mul_pow2 by lia. change (2 ^ 1) with 2.
  rewrite wrap64_small by (change (2 ^ 64) with (2 * 2 ^ 63); lia).
  rewrite (Z.mul_comm _ 2), lor_even_1.
  rewrite Z.pow_add_r by lia. change (2 ^ 1) with 2. lia.
Qed.

Lemma create_mask_loop_spec (n : nat) : forall k : Z,
  0 <= k -> k + Z.of_nat n <= 64 ->
  Swtimersys.create_mask_loop n (2 ^ k - 1) = 2 ^ (k + Z.of_nat n) - 1.
Proof.
  induction n as [|n IH]; intros k Hk Hle; cbn [Swtimersys.create_mask_loop].
  - now rewrite Z.add_0_r.
  - rewrite create_mask_round by lia.
    rewrite IH by lia. f_equal. f_equal. lia.
Qed.

Lemma create_mask_spec (bits : Z) :
  0 <= bits <= 64 -> Swtimersys.create_mask bits = 2 ^ bits - 1.
Proof.
  intros H. unfold Swtimersys.create_mask.
  change 0 with (2 ^ 0 - 1) at 1.
  rewrite create_mask_loop_spec by lia.
  f_equal. f_equal. lia.
Qed.

Lemma create_mask_range (bits : Z) :
  0 <= bits <= 64 -> 0 <= Swtimersys.create_mask bits <= UINT64_MAX.
Proof.
  intros H. rewrite create_mask_spec by lia.
  pose proof (pow2_le_64 bits H). unfold UINT64_MAX. lia.
Qed.

(** What a successful [swtimersys_init] leaves at [swtimersys_p]. *)
Lemma swtimersys_init_ok (m : Swtimersys.store) (p d bits : Z)
    (cb : option Swtimersys.swtimersys_poll_callback_t)
    (old : Swtimersys.swtimersys_t) :
  p <> NULL -> d <> 0 -> 2 <= bits <= 64 -> m !! p = Some old ->
  Swtimersys.swtimersys_init m p d bits cb =
    Ret (<[p := Swtimersys.mk_swtimersys cb 0 d
                  (Swtimersys.timer_width_bits old)
                  (Swtimersys.create_mask bits)
                  (Swtimersys.user_data_p old)]> m).
Proof.
  intros Hp Hd Hb Hm. unfold Swtimersys.swtimersys_init, Swtimersys.deref.
  rewrite Hm.
  destruct (Z.eqb_spec p NULL) as [|_]; [contradiction|].
  destruct (Z.eqb_spec d 0) as [|_]; [contradiction|].
  unfold Swtimersys.TIMER_BITS_MIN, Swtimersys.TIMER_BITS_MAX.
  destruct (Z.leb_spec 2 bits); [|lia].
  destruct (Z.leb_spec bits 64); [|lia].
  reflexivity.
Qed.

(** C6. For every width in [2,64] the mask built by [create_mask], which
    [swtimersys_init] stores as the timer mask, is [2^bits - 1]: bit [i] is
    set exactly when [i < bits], and 64 bits give the all-ones 64-bit value
    [UINT64_MAX]. *)
Theorem C6_create_mask (bits : Z) :
  2 <= bits <= 64 ->
  Swtimersys.create_mask bits = 2 ^ bits - 1 /\
  (forall i : Z, 0 <= i ->
     Z.testbit (Swtimersys.create_mask bits) i = (i <? bits)) /\
  Swtimersys.create_mask 64 = UINT64_MAX /\
  (forall (m : Swtimersys.store) (p d : Z)
          (cb : option Swtimersys.swtimersys_poll_callback_t)
          (old : Swtimersys.swtimersys_t),
     p <> NULL -> d <> 0 -> m !! p = Some old ->
     exists m' s,
       Swtimersys.swtimersys_init m p d bits cb = Ret m' /\
       m' !! p = Some s /\ Swtimersys.timer_mask s = 2 ^ bits - 1).
Proof.
  intros H. split; [|split; [|split]].
  - apply create_mask_spec. lia.
  - intros i Hi. rewrite create_mask_spec by lia.
    rewrite Z.sub_1_r, <- Z.ones_equiv.
    destruct (Z.ltb_spec i bits).
    + apply Z.ones_spec_low. lia.
    + apply Z.ones_spec_high. lia.
  - rewrite create_mask_spec by lia. reflexivity.
  - intros m p d cb old Hp Hd Hm.
    eexists. eexists. split; [|split].
    + apply (swtimersys_init_ok m p d bits cb old); assumption.
    + apply lookup_insert_eq.
    + cbn. apply create_mask_spec. lia.
Qed.

Lemma C6_create_mask_witness :
  2 <= 8 <= 64 /\
  (Swtimersys.create_mask 8 = 2 ^ 8 - 1 /\
   (forall i : Z, 0 <= i ->
      Z.testbit (Swtimersys.create_mask 8) i = (i <? 8)) /\
   Swtimersys.create_mask 64 = UINT64_MAX /\
   (forall (m : Swtimersys.store) (p d : Z)
           (cb : option Swtimersys.swtimersys_poll_callback_t)
           (old : Swtimersys.swtimersys_t),
      p <> NULL -> d <> 0 -> m !! p = Some old ->
      exists m' s,
        Swtimersys.swtimersys_init m p d 8 cb = Ret m' /\
        m' !! p = Some s /\ Swtimersys.timer_mask s = 2 ^ 8 - 1)).
Proof. split; [lia | apply (C6_create_mask 8); lia]. Defined.

(** * Elapsed ticks *)

(** The two branches of [get_elapsed_ticks] on a ring of [M] ticks whose
    mask is [M - 1]. *)
Lemma get_elapsed_ticks_ring (M s c : Z) :
  0 < M <= 2 ^ 64 -> 0 <= s < M -> 0 <= c < M ->
  Swtimer.get_elapsed_ticks (M - 1) s c = (c - s) mod M.
Proof.
  intros HM Hs Hc. unfold Swtimer.get_elapsed_ticks.
  destruct (Z.leb_spec s c) as [Hle|Hlt].
  - symmetry. apply Z.mod_small. lia.
  - rewrite (wrap64_small (M - 1 - s)) by lia.
    rewrite (wrap64_small (M - 1 - s + c)) by lia.
    rewrite wrap64_small by lia.
    apply Z.mod_unique with (q := -1); lia.
Qed.

(** C1. For every width [W] in [2,64] and all ticks [s], [c] below [2^W],
    [get_elapsed_ticks] under the mask of width [W] returns
    [(c - s) mod 2^W]; it is 0 when [c = s] and [2^W - 1] when
    [c = (s - 1) mod 2^W]. *)
Theorem C1_get_elapsed_ticks_mod (W s c : Z) :
  2 <= W <= 64 -> 0 <= s <= 2 ^ W - 1 -> 0 <= c <= 2 ^ W - 1 ->
  Swtimer.get_elapsed_ticks (Swtimersys.create_mask W) s c = (c - s) mod 2 ^ W /\
  (c = s -> Swtimer.get_elapsed_ticks (Swtimersys.create_mask W) s c = 0) /\
  (c = (s - 1) mod 2 ^ W ->
   Swtimer.get_elapsed_ticks (Swtimersys.create_mask W) s c = 2 ^ W - 1).
Proof.
  intros HW Hs Hc.
  assert (HM : 0 < 2 ^ W <= 2 ^ 64) by (apply pow2_le_64; lia).
  rewrite create_mask_spec by lia.
  rewrite get_elapsed_ticks_ring by lia.
  split; [reflexivity|split].
  - intros ->. rewrite Z.sub_diag. apply Z.mod_0_l. lia.
  - intros ->.
    destruct (Z.eq_dec s 0) as [->|Hne].
    + replace ((0 - 1) mod 2 ^ W) with (2 ^ W - 1)
        by (apply Z.mod_unique with (q := -1); lia).
      rewrite Z.sub_0_r. apply Z.mod_small. lia.
    + rewrite (Z.mod_small (s - 1)) by lia.
      replace (s - 1 - s) with (-1) by lia.
      symmetry. apply Z.mod_unique with (q := -1); lia.
Qed.

Lemma C1_get_elapsed_ticks_mod_witness :
  2 <= 8 <= 64 /\ 0 <= 250 <= 2 ^ 8 - 1 /\ 0 <= 2 <= 2 ^ 8 - 1 /\
  Swtimer.get_elapsed_ticks (Swtimersys.create_mask 8) 250 2 = 8.
Proof.
  split; [lia|]. split; [lia|]. split; [lia|].
  destruct (C1_get_elapsed_ticks_mod 8 250 2) as [H _]; [lia | lia | lia |].
  exact H.
Defined.

(** * The tick counter *)

Lemma land_le_r (a b : Z) : 0 <= b -> Z.land a b <= b.
Proof.
  intros Hb.
  assert (Hsum : Z.land a b + Z.ldiff b a = b).
  { rewrite Z.add_nocarry_lor.
    - apply Z.bits_inj'. intros n _.
      rewrite Z.lor_spec, Z.land_spec, Z.ldiff_spec.
      destruct (Z.testbit a n), (Z.testbit b n); reflexivity.
    - apply Z.bits_inj'. intros n _.
      rewrite !Z.land_spec, Z.ldiff_spec, Z.bits_0.
      destruct (Z.testbit a n), (Z.testbit b n); reflexivity. }
  assert (Hd : 0 <= Z.ldiff b a) by (apply Z.ldiff_nonneg; lia).
  lia.
Qed.

(** Masking a 64-bit sum with the mask of [w <= 64] bits reduces the exact
    sum modulo [2^w]. *)
Lemma land_wrap64_mask (x w : Z) :
  0 <= w <= 64 -> Z.land (wrap64 x) (2 ^ w - 1) = x mod 2 ^ w.
Proof.
  intros Hw. rewrite Z.sub_1_r, <- Z.ones_equiv, Z.land_ones by lia.
  unfold wrap64. apply Z.mod_mod_divide.
  exists (2 ^ (64 - w)). rewrite <- Z.pow_add_r by lia. f_equal. lia.
Qed.

Lemma swtimersys_init_inv (m m' : Swtimersys.store) (p d bits : Z)
    (cb : option Swtimersys.swtimersys_poll_callback_t) :
  Swtimersys.swtimersys_init m p d bits cb = Ret m' ->
  p <> NULL /\ d <> 0 /\ 2 <= bits <= 64 /\
  exists old, m !! p = Some old.
Proof.
  unfold Swtimersys.swtimersys_init, Swtimersys.deref,
    Swtimersys.TIMER_BITS_MIN, Swtimersys.TIMER_BITS_MAX.
  destruct (Z.eqb_spec p NULL); [discriminate|].
  destruct (Z.eqb_spec d 0); [discriminate|].
  destruct (Z.leb_spec 2 bits); [|discriminate].
  destruct (Z.leb_spec bits 64); [|discriminate].
  destruct (m !! p) as [old|] eqn:Hm; [|discriminate].
  intros _. repeat split; try assumption; try lia. now exists old.
Qed.

Lemma swtimersys_tick_ok (m : Swtimersys.store) (p n : Z)
    (s : Swtimersys.swtimersys_t) :
  p <> NULL -> n <> 0 -> m !! p = Some s ->
  Swtimersys.swtimersys_tick m p n = Ret (<[p := ticked s n]> m).
Proof.
  intros Hp Hn Hm. unfold Swtimersys.swtimersys_tick, Swtimersys.deref.
  rewrite Hm.
  destruct (Z.eqb_spec p NULL); [contradiction|].
  destruct (Z.eqb_spec n 0); [contradiction|].
  reflexivity.
Qed.

Lemma swtimersys_tick_inv (m m' : Swtimersys.store) (p n : Z) :
  Swtimersys.swtimersys_tick m p n = Ret m' ->
  p <> NULL /\ n <> 0 /\
  exists s, m !! p = Some s /\ m' = <[p := ticked s n]> m.
Proof.
  unfold Swtimersys.swtimersys_tick, Swtimersys.deref.
  destruct (Z.eqb_spec p NULL); [discriminate|].
  destruct (Z.eqb_spec n 0); [discriminate|].
  destruct (m !! p) as [s|] eqn:Hm; [|discriminate].
  cbn. intros [= <-]. repeat split; try assumption. now exists s.
Qed.

(** Masking re-establishes the invariant whatever the counter was. *)
Lemma ticked_counter_in_mask (s : Swtimersys.swtimersys_t) (n : Z) :
  0 <= Swtimersys.timer_mask s ->
  counter_in_mask (ticked s n) /\
  Swtimersys.timer_mask (ticked s n) = Swtimersys.timer_mask s.
Proof.
  intros Hmask. unfold counter_in_mask, ticked. cbn. split; [split|reflexivity].
  - apply Z.land_nonneg. now right.
  - now apply land_le_r.
Qed.

Lemma tick_all_counter_in_mask (deltas : list Z) :
  forall (m m' : Swtimersys.store) (p : Z) (s : Swtimersys.swtimersys_t),
  m !! p = Some s -> 0 <= Swtimersys.timer_mask s -> counter_in_mask s ->
  tick_all deltas m p = Ret m' ->
  exists s', m' !! p = Some s' /\ counter_in_mask s' /\
             Swtimersys.timer_mask s' = Swtimersys.timer_mask s.
Proof.
  induction deltas as [|d ds IH]; intros m m' p s Hm Hmask Hinv; cbn.
  - intros [= <-]. now exists s.
  - destruct (Swtimersys.swtimersys_tick m p d) as [m1|f] eqn:Ht;
      [|discriminate].
    cbn. intros Hrest.
    apply swtimersys_tick_inv in Ht as (_ & _ & s0 & Hs0 & ->).
    rewrite Hm in Hs0. injection Hs0 as <-.
    destruct (ticked_counter_in_mask s d Hmask) as [Hinv1 Hmask1].
    destruct (IH _ _ p (ticked s d) (lookup_insert_eq _ _ _)
                 ltac:(rewrite Hmask1; exact Hmask) Hinv1 Hrest)
      as (s' & Hs' & Hinv' & Hmask').
    exists s'. split; [exact Hs' | split; [exact Hinv' | congruence]].
Qed.

(** C9. After [swtimersys_init], and after every sequence of
    [swtimersys_tick] calls that follows it, the tick counter of the timer
    system is at most its timer mask.  [swtimersys_tick] adds the tick count
    to the counter (in 64 bits) and then masks the sum with the timer mask,
    which leaves the exact sum modulo [2^bits]. *)
Theorem C9_counter_within_mask (m m0 m1 : Swtimersys.store) (p d bits : Z)
    (cb : option Swtimersys.swtimersys_poll_callback_t) (deltas : list Z) :
  Swtimersys.swtimersys_init m p d bits cb = Ret m0 ->
  tick_all deltas m0 p = Ret m1 ->
  (exists s0, m0 !! p = Some s0 /\ Swtimersys.tick_counter s0 = 0 /\
              counter_in_mask s0) /\
  (exists s1, m1 !! p = Some s1 /\ counter_in_mask s1 /\
              Swtimersys.timer_mask s1 = 2 ^ bits - 1) /\
  (forall (s1 : Swtimersys.swtimersys_t) (n : Z),
     m1 !! p = Some s1 -> n <> 0 ->
     exists s2,
       Swtimersys.swtimersys_tick m1 p n = Ret (<[p := s2]> m1) /\
       Swtimersys.tick_counter s2 =
         Z.land (wrap64 (Swtimersys.tick_counter s1 + n))
                (Swtimersys.timer_mask s1) /\
       Swtimersys.tick_counter s2 =
         (Swtimersys.tick_counter s1 + n) mod 2 ^ bits /\
       Swtimersys.timer_mask s2 = Swtimersys.timer_mask s1 /\
       counter_in_mask s2).
Proof.
  intros Hinit Hticks.
  destruct (swtimersys_init_inv _ _ _ _ _ _ Hinit)
    as (Hp & Hd & Hbits & old & Hold).
  rewrite (swtimersys_init_ok m p d bits cb old Hp Hd Hbits Hold) in Hinit.
  injection Hinit as <-.
  pose proof (create_mask_range bits ltac:(lia)) as Hrange.
  set (s0 := Swtimersys.mk_swtimersys cb 0 d
               (Swtimersys.timer_width_bits old)
               (Swtimersys.create_mask bits)
               (Swtimersys.user_data_p old)) in *.
  assert (Hs0 : (<[p := s0]> m : Swtimersys.store) !! p = Some s0)
    by apply lookup_insert_eq.
  assert (Hinv0 : counter_in_mask s0) by (unfold counter_in_mask; cbn; lia).
  destruct (tick_all_counter_in_mask deltas _ _ p s0 Hs0
              ltac:(cbn; lia) Hinv0 Hticks) as (s1 & Hs1 & Hinv1 & Hmask1).
  split; [|split].
  - exists s0. split; [exact Hs0 | split; [reflexivity | exact Hinv0]].
  - exists s1. split; [exact Hs1 | split; [exact Hinv1 |]].
    rewrite Hmask1. cbn. apply create_mask_spec. lia.
  - intros s1' n Hs1' Hn. rewrite Hs1 in Hs1'. injection Hs1' as <-.
    exists (ticked s1 n). split; [|split; [|split; [|split]]].
    + now apply swtimersys_tick_ok.
    + reflexivity.
    + cbn. rewrite Hmask1. cbn. rewrite create_mask_spec by lia.
      apply land_wrap64_mask. lia.
    + reflexivity.
    + apply ticked_counter_in_mask. rewrite Hmask1. cbn. lia.
Qed.

Lemma C9_counter_within_mask_witness :
  exists s1,
    (<[sys_addr := Swtimersys.mk_swtimersys None 44 1000 0 255 NULL]>
       fresh_store : Swtimersys.store) !! sys_addr = Some s1 /\
    counter_in_mask s1 /\ Swtimersys.timer_mask s1 = 2 ^ 8 - 1.
Proof.
  refine (proj1 (proj2
    (C9_counter_within_mask fresh_store
       (<[sys_addr := Swtimersys.mk_swtimersys None 0 1000 0 255 NULL]>
          fresh_store)
       (<[sys_addr := Swtimersys.mk_swtimersys None 44 1000 0 255 NULL]>
          fresh_store)
       sys_addr 1000 8 None [200; 100] _ _))).
  - vm_compute. reflexivity.
  - vm_compute. reflexivity.
Defined.

(** * Which assertion can fail where *)

Lemma swtimersys_poll_timer_failure (m : Swtimersys.store) (hw : hw_regs)
    (p : Z) (f : failure) :
  Swtimersys.swtimersys_poll_timer m hw p = Abort f ->
  f = Assert_swtimersys_p \/ f = InvalidPointer.
Proof.
  unfold Swtimersys.swtimersys_poll_timer, Swtimersys.deref.
  destruct (p =? NULL); cbn; [intros [= <-]; now left|].
  destruct (m !! p) as [s|]; cbn; [|intros [= <-]; now right].
  destruct (Swtimersys.poll_cb s); discriminate.
Qed.

Lemma swtimersys_tick_failure (m : Swtimersys.store) (p n : Z) (f : failure) :
  Swtimersys.swtimersys_tick m p n = Abort f -> f <> Assert_not_starving.
Proof.
  unfold Swtimersys.swtimersys_tick, Swtimersys.deref.
  destruct (p =? NULL); cbn; [intros [= <-]; discriminate|].
  destruct (n =? 0); cbn; [intros [= <-]; discriminate|].
  destruct (m !! p); cbn; [discriminate|intros [= <-]; discriminate].
Qed.

(** * Starvation tracking *)

Lemma swtimer_init_limit (m : Swtimersys.store) (p limit : Z)
    (t : Swtimer.swtimer_t) :
  Swtimer.swtimer_init m p limit = Ret t ->
  Swtimer.invocation_limit (Swtimer.starvation_tracking t) = limit /\
  Swtimer.invocation_count (Swtimer.starvation_tracking t) = 0 /\
  Swtimer.swtimersys_p t = p.
Proof.
  unfold Swtimer.swtimer_init, Swtimersys.swtimersys_get_tick_duration_ns,
    Swtimersys.swtimersys_get_timer_mask, Swtimersys.deref.
  destruct (p =? NULL); cbn; [discriminate|].
  destruct (m !! p); cbn; [|discriminate].
  intros [= <-]. cbn. auto.
Qed.

(** With a zero invocation limit [is_timer_starving] answers [false] and
    touches nothing. *)
Lemma is_timer_starving_disabled (st : Swtimer.swtimer_starvation_tracking_t)
    (tick_count : Z) :
  Swtimer.invocation_limit st = 0 ->
  Swtimer.is_timer_starving st tick_count = (false, st).
Proof.
  intros H. unfold Swtimer.is_timer_starving,
    Swtimer.is_starvation_tracking_enabled.
  rewrite H. reflexivity.
Qed.

(** [swtimer_start] stores the polled tick as start tick and as last tick
    count, and leaves the invocation count and limit as they were. *)
Lemma swtimer_start_tracking (m : Swtimersys.store) (hw : hw_regs)
    (t t' : Swtimer.swtimer_t) :
  Swtimer.swtimer_start m hw t = Ret t' ->
  Swtimersys.swtimersys_poll_timer m hw (Swtimer.swtimersys_p t)
    = Ret (Swtimer.start_tick_count t') /\
  Swtimer.last_tick_count (Swtimer.starvation_tracking t')
    = Swtimer.start_tick_count t' /\
  Swtimer.invocation_count (Swtimer.starvation_tracking t')
    = Swtimer.invocation_count (Swtimer.starvation_tracking t) /\
  Swtimer.invocation_limit (Swtimer.starvation_tracking t')
    = Swtimer.invocation_limit (Swtimer.starvation_tracking t).
Proof.
  unfold Swtimer.swtimer_start.
  destruct (Swtimersys.swtimersys_poll_timer m hw (Swtimer.swtimersys_p t))
    as [tick|f]; cbn; [|discriminate].
  intros [= <-]. cbn. auto.
Qed.

(** What a returning [swtimer_get_time] computed: the value compared with
    the last tick count, and stored as the new one, is the elapsed tick
    count. *)
Lemma swtimer_get_time_ret (m : Swtimersys.store) (hw : hw_regs)
    (t t' : Swtimer.swtimer_t) (r v : Z) :
  Swtimer.swtimer_get_time m hw t r = Ret (v, t') ->
  exists tick,
    Swtimersys.swtimersys_poll_timer m hw (Swtimer.swtimersys_p t) = Ret tick /\
    let elapsed := Swtimer.get_elapsed_ticks (Swtimer.timer_mask t)
                     (Swtimer.start_tick_count t) tick in
    v = Swtimer.get_time_for_tick_count (Swtimer.tick_duration_ns t) elapsed r /\
    Swtimer.is_timer_starving (Swtimer.starvation_tracking t) elapsed
      = (false, Swtimer.starvation_tracking t') /\
    t' = Swtimer.set_starvation_tracking (Swtimer.starvation_tracking t') t.
Proof.
  unfold Swtimer.swtimer_get_time.
  destruct (Swtimersys.swtimersys_poll_timer m hw (Swtimer.swtimersys_p t))
    as [tick|f]; cbn; [|discriminate].
  destruct (Swtimer.is_timer_starving (Swtimer.starvation_tracking t) _)
    as [starving st] eqn:Hs.
  destruct starving; cbn; [discriminate|].
  intros [= <- <-]. exists tick. cbn. auto.
Qed.

(** A call on a timer whose invocation limit is zero does not end on the
    starvation assertion, and the limit stays zero. *)
Lemma exec_call_disabled (c : call) (m : Swtimersys.store)
    (t : Swtimer.swtimer_t) :
  Swtimer.invocation_limit (Swtimer.starvation_tracking t) = 0 ->
  starvation_signalled (exec_call c (m, t)) = false /\
  forall m' t', exec_call c (m, t) = Ret (m', t') ->
    Swtimer.invocation_limit (Swtimer.starvation_tracking t') = 0.
Proof.
  intros Hlim. destruct c as [hw|hw r|p n]; cbn [exec_call fst snd].
  - destruct (Swtimer.swtimer_start m hw t) as [t1|f] eqn:Hs; cbn.
    + split; [reflexivity|]. intros m' t' [= _ <-].
      apply swtimer_start_tracking in Hs as (_ & _ & _ & ->). exact Hlim.
    + split; [|discriminate].
      unfold Swtimer.swtimer_start in Hs.
      destruct (Swtimersys.swtimersys_poll_timer m hw (Swtimer.swtimersys_p t))
        as [tick|f'] eqn:Hp; cbn in Hs; [discriminate|].
      injection Hs as <-.
      destruct (swtimersys_poll_timer_failure _ _ _ _ Hp) as [->| ->];
        reflexivity.
  - unfold Swtimer.swtimer_get_time.
    destruct (Swtimersys.swtimersys_poll_timer m hw (Swtimer.swtimersys_p t))
      as [tick|f'] eqn:Hp; cbn.
    + rewrite is_timer_starving_disabled by exact Hlim. cbn.
      split; [reflexivity|]. intros m' t' [= _ <-]. exact Hlim.
    + split; [|discriminate].
      destruct (swtimersys_poll_timer_failure _ _ _ _ Hp) as [->| ->];
        reflexivity.
  - destruct (Swtimersys.swtimersys_tick m p n) as [m1|f] eqn:Ht; cbn.
    + split; [reflexivity|]. intros m' t' [= _ <-]. exact Hlim.
    + split; [|discriminate].
      pose proof (swtimersys_tick_failure _ _ _ _ Ht) as Hf.
      destruct f; try reflexivity. contradiction.
Qed.

Lemma exec_disabled (cs : list call) :
  forall (m : Swtimersys.store) (t : Swtimer.swtimer_t),
  Swtimer.invocation_limit (Swtimer.starvation_tracking t) = 0 ->
  starvation_signalled (exec cs (m, t)) = false.
Proof.
  induction cs as [|c cs IH]; intros m t Hlim; cbn [exec].
  - reflexivity.
  - destruct (exec_call_disabled c m t Hlim) as [Hc Hnext].
    destruct (exec_call c (m, t)) as [[m1 t1]|f]; cbn.
    + apply IH. now apply (Hnext m1 t1).
    + exact Hc.
Qed.

(** C7. A timer initialised with invocation limit 0 never signals
    starvation: no sequence of starts, time queries and ticks ends on the
    starvation assertion, and each query's starvation check answers [false]
    and leaves the tracking data alone, however many queries see the same
    tick. *)
Theorem C7_limit_zero_never_starves (m : Swtimersys.store) (p : Z)
    (t : Swtimer.swtimer_t) :
  Swtimer.swtimer_init m p 0 = Ret t ->
  (forall (cs : list call) (m1 : Swtimersys.store),
     starvation_signalled (exec cs (m1, t)) = false /\
     exec cs (m1, t) <> Abort Assert_not_starving) /\
  (forall tick_count : Z,
     Swtimer.is_timer_starving (Swtimer.starvation_tracking t) tick_count
       = (false, Swtimer.starvation_tracking t)).
Proof.
  intros Hinit. apply swtimer_init_limit in Hinit as (Hlim & _ & _).
  split.
  - intros cs m1. pose proof (exec_disabled cs m1 t Hlim) as H.
    split; [exact H|]. intros Heq. rewrite Heq in H. discriminate.
  - intros tick_count. now apply is_timer_starving_disabled.
Qed.

Lemma C7_limit_zero_never_starves_witness :
  Swtimer.swtimer_init configured_store sys_addr 0 = Ret (bound_timer 0) /\
  starvation_signalled
    (exec [start; query; query; query; query; query]
          (configured_store, bound_timer 0)) = false.
Proof.
  assert (H : Swtimer.swtimer_init configured_store sys_addr 0
              = Ret (bound_timer 0)) by (vm_compute; reflexivity).
  split; [exact H|].
  exact (proj1 (proj1 (C7_limit_zero_never_starves
                         configured_store sys_addr (bound_timer 0) H)
                      [start; query; query; query; query; query]
                      configured_store)).
Defined.

(** * Conversion to a resolution of time *)

(** C10. For a resolution argument that is none of the five enumerators,
    [get_time_for_tick_count] takes the default branch and returns the tick
    count unconverted, and [swtimer_get_time] returns the raw elapsed tick
    count: with [tick] the polled tick, the call ends on the starvation
    assertion when [is_timer_starving] says so and otherwise returns
    [get_elapsed_ticks] of the timer's mask, its start tick and [tick],
    exactly as it does for [SWTIMER_TIMERTICK]. *)
Theorem C10_undefined_resolution_is_ticks (r : Swtimer.swtimer_resolution_t) :
  r <> Swtimer.SWTIMER_TIMERTICK -> r <> Swtimer.SWTIMER_NS ->
  r <> Swtimer.SWTIMER_US -> r <> Swtimer.SWTIMER_MS ->
  r <> Swtimer.SWTIMER_S ->
  (forall d tick_count : Z,
     Swtimer.get_time_for_tick_count d tick_count r = tick_count /\
     Swtimer.get_time_for_tick_count d tick_count Swtimer.SWTIMER_TIMERTICK
       = tick_count) /\
  (forall (m : Swtimersys.store) (hw : hw_regs) (t : Swtimer.swtimer_t),
     Swtimer.swtimer_get_time m hw t r
       = Swtimer.swtimer_get_time m hw t Swtimer.SWTIMER_TIMERTICK) /\
  (forall (m : Swtimersys.store) (hw : hw_regs) (t : Swtimer.swtimer_t)
          (tick : Z),
     Swtimersys.swtimersys_poll_timer m hw (Swtimer.swtimersys_p t)
       = Ret tick ->
     let elapsed := Swtimer.get_elapsed_ticks (Swtimer.timer_mask t)
                      (Swtimer.start_tick_count t) tick in
     let check := Swtimer.is_timer_starving (Swtimer.starvation_tracking t)
                    elapsed in
     Swtimer.swtimer_get_time m hw t r =
       (if fst check then Abort Assert_not_starving
        else Ret (elapsed, Swtimer.set_starvation_tracking (snd check) t)) /\
     Swtimer.swtimer_get_time m hw t Swtimer.SWTIMER_TIMERTICK =
       (if fst check then Abort Assert_not_starving
        else Ret (elapsed, Swtimer.set_starvation_tracking (snd check) t))) /\
  (forall (m : Swtimersys.store) (hw : hw_regs) (t t' : Swtimer.swtimer_t)
          (v : Z),
     Swtimer.swtimer_get_time m hw t r = Ret (v, t') ->
     exists tick,
       Swtimersys.swtimersys_poll_timer m hw (Swtimer.swtimersys_p t)
         = Ret tick /\
       v = Swtimer.get_elapsed_ticks (Swtimer.timer_mask t)
             (Swtimer.start_tick_count t) tick).
Proof.
  intros H0 H1 H2 H3 H4.
  assert (Hconv : forall d tc, Swtimer.get_time_for_tick_count d tc r = tc).
  { intros d tc. unfold Swtimer.get_time_for_tick_count.
    destruct (Z.eqb_spec r Swtimer.SWTIMER_NS); [contradiction|].
    destruct (Z.eqb_spec r Swtimer.SWTIMER_US); [contradiction|].
    destruct (Z.eqb_spec r Swtimer.SWTIMER_MS); [contradiction|].
    destruct (Z.eqb_spec r Swtimer.SWTIMER_S); [contradiction|].
    reflexivity. }
  assert (Hsame : forall m hw t,
            Swtimer.swtimer_get_time m hw t r
              = Swtimer.swtimer_get_time m hw t Swtimer.SWTIMER_TIMERTICK).
  { intros m hw t. unfold Swtimer.swtimer_get_time.
    destruct (Swtimersys.swtimersys_poll_timer m hw (Swtimer.swtimersys_p t))
      as [tick|f]; cbn; [|reflexivity].
    destruct (Swtimer.is_timer_starving _ _) as [starving st].
    destruct starving; cbn; [reflexivity|].
    now rewrite Hconv. }
  assert (Hval : forall m hw t tick,
            Swtimersys.swtimersys_poll_timer m hw (Swtimer.swtimersys_p t)
              = Ret tick ->
            let elapsed := Swtimer.get_elapsed_ticks (Swtimer.timer_mask t)
                             (Swtimer.start_tick_count t) tick in
            let check := Swtimer.is_timer_starving
                           (Swtimer.starvation_tracking t) elapsed in
            Swtimer.swtimer_get_time m hw t r =
              (if fst check then Abort Assert_not_starving
               else Ret (elapsed,
                         Swtimer.set_starvation_tracking (snd check) t))).
  { intros m hw t tick Hp. cbv zeta. unfold Swtimer.swtimer_get_time.
    rewrite Hp. cbn [bind].
    destruct (Swtimer.is_timer_starving _ _) as [starving st].
    destruct starving; cbn; [reflexivity|].
    now rewrite Hconv. }
  split; [|split; [|split]].
  - intros d tc. split; [apply Hconv | reflexivity].
  - exact Hsame.
  - intros m hw t tick Hp. cbv zeta. split.
    + exact (Hval m hw t tick Hp).
    + rewrite <- Hsame. exact (Hval m hw t tick Hp).
  - intros m hw t t' v Hret.
    apply swtimer_get_time_ret in Hret as (tick & Hp & Hv & _).
    exists tick. split; [exact Hp|]. cbv zeta in Hv. now rewrite Hconv in Hv.
Qed.

Lemma C10_undefined_resolution_is_ticks_witness :
  Swtimer.get_time_for_tick_count 1000 8 5 = 8 /\
  Swtimer.swtimer_get_time
    (<[sys_addr := Swtimersys.mk_swtimersys None 2 1000 0 255 NULL]>
       fresh_store) (regs_at 0)
    (Swtimer.mk_swtimer sys_addr 250 1000 255 (Swtimer.mk_tracking 3 0 250))
    (-1)
  = Ret (8, Swtimer.mk_swtimer sys_addr 250 1000 255
              (Swtimer.mk_tracking 3 0 8)).
Proof.
  split.
  - apply (C10_undefined_resolution_is_ticks 5); vm_compute; discriminate.
  - pose (m := (<[sys_addr := Swtimersys.mk_swtimersys None 2 1000 0 255
                               NULL]> fresh_store : Swtimersys.store)).
    pose (t := Swtimer.mk_swtimer sys_addr 250 1000 255
                 (Swtimer.mk_tracking 3 0 250)).
    assert (Hp : Swtimersys.swtimersys_poll_timer m (regs_at 0)
                   (Swtimer.swtimersys_p t) = Ret 2)
      by (vm_compute; reflexivity).
    assert (Hr : (-1) <> Swtimer.SWTIMER_TIMERTICK /\
                 (-1) <> Swtimer.SWTIMER_NS /\ (-1) <> Swtimer.SWTIMER_US /\
                 (-1) <> Swtimer.SWTIMER_MS /\ (-1) <> Swtimer.SWTIMER_S)
      by (repeat split; vm_compute; discriminate).
    destruct Hr as (R0 & R1 & R2 & R3 & R4).
    exact (proj1 (proj1 (proj2 (proj2
             (C10_undefined_resolution_is_ticks (-1) R0 R1 R2 R3 R4)))
             m (regs_at 0) t 2 Hp)).
Defined.

(** [get_time_for_tick_count] forms the product in 64 bits. *)
Lemma get_time_for_tick_count_cases (d t : Z) :
  Swtimer.get_time_for_tick_count d t Swtimer.SWTIMER_NS = wrap64 (t * d) /\
  Swtimer.get_time_for_tick_count d t Swtimer.SWTIMER_US
    = wrap64 (t * d) / 1000 /\
  Swtimer.get_time_for_tick_count d t Swtimer.SWTIMER_MS
    = wrap64 (t * d) / 1000000 /\
  Swtimer.get_time_for_tick_count d t Swtimer.SWTIMER_S
    = wrap64 (t * d) / 1000000000 /\
  Swtimer.get_time_for_tick_count d t Swtimer.SWTIMER_TIMERTICK = t.
Proof. repeat split. Qed.

(** C5, as the code has it. The product of the elapsed ticks [t] and the
    tick duration [d] is formed in 64-bit unsigned arithmetic.  Whenever
    [t * d] fits in 64 bits, the conversion returns [t * d] for nanoseconds,
    [(t * d) / 1000] for microseconds, [(t * d) / 1000000] for milliseconds
    and [(t * d) / 1000000000] for seconds, by truncating division; in
    general the product is reduced modulo [2^64] before the division; the
    raw-tick resolution returns [t] unchanged. *)
Theorem C5_conversion_within_64_bits (d t : Z) :
  0 <= t * d < 2 ^ 64 ->
  Swtimer.get_time_for_tick_count d t Swtimer.SWTIMER_NS = t * d /\
  Swtimer.get_time_for_tick_count d t Swtimer.SWTIMER_US
    = Z.quot (t * d) 1000 /\
  Swtimer.get_time_for_tick_count d t Swtimer.SWTIMER_MS
    = Z.quot (t * d) 1000000 /\
  Swtimer.get_time_for_tick_count d t Swtimer.SWTIMER_S
    = Z.quot (t * d) 1000000000 /\
  Swtimer.get_time_for_tick_count d t Swtimer.SWTIMER_TIMERTICK = t /\
  (forall d' t' : Z,
     Swtimer.get_time_for_tick_count d' t' Swtimer.SWTIMER_NS
       = (t' * d') mod 2 ^ 64 /\
     Swtimer.get_time_for_tick_count d' t' Swtimer.SWTIMER_US
       = Z.quot ((t' * d') mod 2 ^ 64) 1000 /\
     Swtimer.get_time_for_tick_count d' t' Swtimer.SWTIMER_MS
       = Z.quot ((t' * d') mod 2 ^ 64) 1000000 /\
     Swtimer.get_time_for_tick_count d' t' Swtimer.SWTIMER_S
       = Z.quot ((t' * d') mod 2 ^ 64) 1000000000 /\
     Swtimer.get_time_for_tick_count d' t' Swtimer.SWTIMER_TIMERTICK = t').
Proof.
  intros Hfit.
  assert (Hgen : forall d' t' : Z,
     Swtimer.get_time_for_tick_count d' t' Swtimer.SWTIMER_NS
       = (t' * d') mod 2 ^ 64 /\
     Swtimer.get_time_for_tick_count d' t' Swtimer.SWTIMER_US
       = Z.quot ((t' * d') mod 2 ^ 64) 1000 /\
     Swtimer.get_time_for_tick_count d' t' Swtimer.SWTIMER_MS
       = Z.quot ((t' * d') mod 2 ^ 64) 1000000 /\
     Swtimer.get_time_for_tick_count d' t' Swtimer.SWTIMER_S
       = Z.quot ((t' * d') mod 2 ^ 64) 1000000000 /\
     Swtimer.get_time_for_tick_count d' t' Swtimer.SWTIMER_TIMERTICK = t').
  { intros d' t'.
    destruct (get_time_for_tick_count_cases d' t') as (-> & -> & -> & -> & ->).
    pose proof (wrap64_range (t' * d')) as Hr. unfold wrap64 in *.
    rewrite !Z.quot_div_nonneg by lia. repeat split. }
  destruct (Hgen d t) as (Hns & Hus & Hms & Hs & Htick).
  rewrite (Z.mod_small (t * d)) in Hns, Hus, Hms, Hs by lia.
  repeat split; assumption || apply Hgen.
Qed.

Lemma C5_conversion_within_64_bits_witness :
  0 <= 8 * 1000 < 2 ^ 64 /\
  Swtimer.get_time_for_tick_count 1000 8 Swtimer.SWTIMER_NS = 8000 /\
  Swtimer.get_time_for_tick_count 1000 8 Swtimer.SWTIMER_US = 8.
Proof.
  assert (H : 0 <= 8 * 1000 < 2 ^ 64) by lia.
  destruct (C5_conversion_within_64_bits 1000 8 H) as (Hns & Hus & _).
  split; [exact H|]. split; [exact Hns | exact Hus].
Defined.

(** The claim C5 as written fails when the product overflows: a 36-bit timer
    with a tick of one second has run [2^35] ticks, and the nanosecond and
    microsecond values are not [t * d] and [(t * d) / 1000]. *)
Lemma C5_product_overflow_counterexample :
  Swtimer.get_time_for_tick_count 1000000000 (2 ^ 35) Swtimer.SWTIMER_NS
    <> 2 ^ 35 * 1000000000 /\
  Swtimer.get_time_for_tick_count 1000000000 (2 ^ 35) Swtimer.SWTIMER_US
    <> (2 ^ 35 * 1000000000) / 1000.
Proof. split; vm_compute; discriminate. Qed.

(** * Where the code departs from its documentation *)

(** [swtimersys_poll_timer] hands the callback the [user_data_p] field of
    the structure, or returns the tick counter when there is no callback. *)
Lemma swtimersys_poll_timer_spec (m : Swtimersys.store) (hw : hw_regs)
    (p : Z) (s : Swtimersys.swtimersys_t) :
  p <> NULL -> m !! p = Some s ->
  Swtimersys.swtimersys_poll_timer m hw p =
    Ret (match Swtimersys.poll_cb s with
         | Some cb => wrap64 (cb (Swtimersys.user_data_p s) hw)
         | None => Swtimersys.tick_counter s
         end).
Proof.
  intros Hp Hm. unfold Swtimersys.swtimersys_poll_timer, Swtimersys.deref.
  rewrite Hm. destruct (Z.eqb_spec p NULL); [contradiction|]. cbn.
  destruct (Swtimersys.poll_cb s); reflexivity.
Qed.


(** ** Queries of a static source *)

Lemma exec_app (cs1 cs2 : list call) :
  forall st : Swtimersys.store * Swtimer.swtimer_t,
  exec (cs1 ++ cs2) st = (let* st' := exec cs1 st in exec cs2 st').
Proof.
  induction cs1 as [|c cs1 IH]; intros st; cbn [exec app bind].
  - reflexivity.
  - destruct (exec_call c st) as [st1|f]; cbn [bind]; [apply IH|reflexivity].
Qed.

(** A query of a timer whose source still stands at the start tick sees
    zero elapsed ticks, and that zero is what the starvation check gets. *)
Lemma query_static (m : Swtimersys.store) (t : Swtimer.swtimer_t) (s : Z) :
  static_at m t s -> Swtimer.start_tick_count t = s ->
  exec_call query (m, t) =
    (let '(starving, st) :=
       Swtimer.is_timer_starving (Swtimer.starvation_tracking t) 0 in
     do assert (negb starving) Assert_not_starving in
     Ret (m, Swtimer.set_starvation_tracking st t)).
Proof.
  intros (Hp & sys & Hsys & Hcb & Hcnt) Hstart.
  unfold query. cbn [exec_call fst snd]. unfold Swtimer.swtimer_get_time.
  rewrite (swtimersys_poll_timer_spec m _ _ sys Hp Hsys), Hcb, Hcnt, Hstart.
  cbn [bind]. unfold Swtimer.get_elapsed_ticks.
  rewrite Z.leb_refl, Z.sub_diag.
  destruct (Swtimer.is_timer_starving (Swtimer.starvation_tracking t) 0)
    as [starving st].
  destruct starving; reflexivity.
Qed.

(** The three cases of the starvation check when tracking is enabled. *)
Lemma manage_invocation_count_same (limit c l : Z) :
  c < UINT64_MAX ->
  Swtimer.manage_invocation_count (Swtimer.mk_tracking limit c l) l
    = Swtimer.mk_tracking limit (c + 1) l.
Proof.
  intros Hc. unfold Swtimer.manage_invocation_count.
  cbn [Swtimer.last_tick_count Swtimer.invocation_count].
  rewrite Z.eqb_refl. destruct (Z.ltb_spec c UINT64_MAX); [reflexivity|lia].
Qed.

Lemma manage_invocation_count_other (limit c l e : Z) :
  l <> e ->
  Swtimer.manage_invocation_count (Swtimer.mk_tracking limit c l) e
    = Swtimer.mk_tracking limit 0 e.
Proof.
  intros Hne. unfold Swtimer.manage_invocation_count.
  cbn [Swtimer.last_tick_count].
  destruct (Z.eqb_spec l e); [contradiction|reflexivity].
Qed.

Lemma is_timer_starving_enabled (st : Swtimer.swtimer_starvation_tracking_t)
    (e : Z) :
  Swtimer.invocation_limit st <> 0 ->
  Swtimer.is_timer_starving st e =
    (Swtimer.invocation_count (Swtimer.manage_invocation_count st e)
       >=? Swtimer.invocation_limit (Swtimer.manage_invocation_count st e),
     Swtimer.manage_invocation_count st e).
Proof.
  intros Hlim. unfold Swtimer.is_timer_starving,
    Swtimer.is_starvation_tracking_enabled.
  destruct (Z.eqb_spec 0 (Swtimer.invocation_limit st)) as [He|_];
    [congruence|reflexivity].
Qed.

(** Once the last tick count is the elapsed value 0, every further query of
    the static source adds one to the invocation count. *)
Lemma queries_static_count (m : Swtimersys.store) (s limit : Z) (k : nat) :
  forall (t : Swtimer.swtimer_t) (c : Z),
  static_at m t s -> Swtimer.start_tick_count t = s ->
  Swtimer.starvation_tracking t = Swtimer.mk_tracking limit c 0 ->
  0 <= c -> c + Z.of_nat k < limit -> limit <= UINT64_MAX ->
  exec (queries k) (m, t) =
    Ret (m, Swtimer.set_starvation_tracking
              (Swtimer.mk_tracking limit (c + Z.of_nat k) 0) t).
Proof.
  induction k as [|k IH]; intros t c Hst Hstart Htr Hc Hlt Hmax.
  - cbn. rewrite Z.add_0_r, <- Htr. now destruct t.
  - unfold queries. cbn [repeat exec]. fold (queries k).
    rewrite (query_static m t s Hst Hstart), Htr.
    rewrite is_timer_starving_enabled
      by (cbn [Swtimer.invocation_limit]; lia).
    rewrite manage_invocation_count_same by lia.
    cbn [Swtimer.invocation_limit Swtimer.invocation_count].
    destruct (Z.geb_spec (c + 1) limit) as [Hge|_]; [lia|].
    cbn [negb assert bind].
    rewrite (IH _ (c + 1)); try assumption; try reflexivity; try lia.
    unfold Swtimer.set_starvation_tracking.
    cbn [Swtimer.swtimersys_p Swtimer.start_tick_count
         Swtimer.tick_duration_ns Swtimer.timer_mask].
    do 4 f_equal. lia.
Qed.

(** What the code does for a source that stands still at a tick [s <> 0]
    after the start, whatever the invocation limit [n + 1]: the queries up to
    number [n + 1] return, with the invocation count one behind the number of
    queries, and query number [n + 2] ends on the starvation assertion. *)
Lemma static_source_signals_one_query_late (m : Swtimersys.store)
    (t : Swtimer.swtimer_t) (s c : Z) (n : nat) :
  static_at m t s -> Swtimer.start_tick_count t = s -> s <> 0 ->
  Swtimer.starvation_tracking t = Swtimer.mk_tracking (Z.of_nat (S n)) c s ->
  Z.of_nat (S n) <= UINT64_MAX ->
  exec (queries (S n)) (m, t) =
    Ret (m, Swtimer.set_starvation_tracking
              (Swtimer.mk_tracking (Z.of_nat (S n)) (Z.of_nat n) 0) t) /\
  exec (queries (S (S n))) (m, t) = Abort Assert_not_starving.
Proof.
  intros Hst Hstart Hs Htr Hmax.
  set (limit := Z.of_nat (S n)) in *.
  assert (Hlimit : limit = Z.of_nat n + 1) by (unfold limit; lia).
  set (t1 := Swtimer.set_starvation_tracking
               (Swtimer.mk_tracking limit 0 0) t).
  assert (Hfirst : exec_call query (m, t) = Ret (m, t1)).
  { rewrite (query_static m t s Hst Hstart), Htr.
    rewrite is_timer_starving_enabled
      by (cbn [Swtimer.invocation_limit]; lia).
    rewrite manage_invocation_count_other by exact Hs.
    cbn [Swtimer.invocation_limit Swtimer.invocation_count].
    destruct (Z.geb_spec 0 limit) as [Hge|_]; [lia|]. reflexivity. }
  assert (Hst1 : static_at m t1 s) by exact Hst.
  assert (Hrest : exec (queries n) (m, t1) =
            Ret (m, Swtimer.set_starvation_tracking
                      (Swtimer.mk_tracking limit (Z.of_nat n) 0) t)).
  { rewrite (queries_static_count m s limit n t1 0);
      try assumption; try reflexivity; lia. }
  split.
  - unfold queries. cbn [repeat exec]. fold (queries n).
    rewrite Hfirst. cbn [bind]. exact Hrest.
  - assert (Hq : queries (S (S n)) = query :: (queries n ++ [query])).
    { unfold queries. cbn [repeat]. f_equal. apply repeat_cons. }
    rewrite Hq. cbn [exec]. rewrite Hfirst. cbn [bind].
    rewrite exec_app, Hrest. cbn [bind exec].
    rewrite (query_static m
               (Swtimer.set_starvation_tracking
                  (Swtimer.mk_tracking limit (Z.of_nat n) 0) t) s Hst Hstart).
    cbn [Swtimer.starvation_tracking Swtimer.set_starvation_tracking].
    rewrite is_timer_starving_enabled
      by (cbn [Swtimer.invocation_limit]; lia).
    rewrite manage_invocation_count_same by lia.
    cbn [Swtimer.invocation_limit Swtimer.invocation_count].
    destruct (Z.geb_spec (Z.of_nat n + 1) limit) as [_|Hlt]; [reflexivity|lia].
Qed.

(** A sequence of ticks changes nothing but the tick counter of the timer
    system it advances. *)
Lemma tick_all_store (deltas : list Z) :
  forall (m m' : Swtimersys.store) (p : Z) (s : Swtimersys.swtimersys_t),
  m !! p = Some s -> tick_all deltas m p = Ret m' ->
  exists c, m' = <[p := Swtimersys.set_tick_counter c s]> m.
Proof.
  induction deltas as [|d ds IH]; intros m m' p s Hm; cbn [tick_all].
  - intros [= <-]. exists (Swtimersys.tick_counter s).
    symmetry. apply insert_id. rewrite Hm. now destruct s.
  - destruct (Swtimersys.swtimersys_tick m p d) as [m1|f] eqn:Ht;
      [|discriminate]. cbn [bind]. intros Hrest.
    apply swtimersys_tick_inv in Ht as (_ & _ & s0 & Hs0 & ->).
    rewrite Hm in Hs0. injection Hs0 as <-.
    destruct (IH _ _ p (ticked s d) (lookup_insert_eq _ _ _) Hrest)
      as [c ->].
    exists c. now rewrite insert_insert_eq.
Qed.





(** C4, evaluated on the code. [swtimer_start] calls
    [init_starvation_tracking], which assigns [last_tick_count] only.  With
    invocation limit 5, a start and one query at a static tick leave the
    invocation count at 1; the source advances by 3 and the timer is started
    again: the last tick count is the new start tick 3, the invocation count
    is still 1. *)
Theorem C4_start_keeps_invocation_count :
  final_tracking (run_timer 1000 8 None 5 [start; query])
    = Some (Swtimer.mk_tracking 5 1 0) /\
  final_tracking (run_timer 1000 8 None 5 [start; query; advance 3; start])
    = Some (Swtimer.mk_tracking 5 1 3).
Proof. split; vm_compute; reflexivity. Qed.

(** C3, evaluated on the code. [swtimer_get_time] overwrites its local
    [tick_count] with the elapsed ticks before it calls [is_timer_starving],
    so the elapsed ticks are compared with, and stored as, the last tick
    count.  With invocation limit 10 and a start at tick 5: a query that
    samples tick 5 again (equal to the last tick count 5) leaves the count at
    0 and stores 0; a query that samples tick 10 (different from the last
    tick count 5) raises the count to 1 and stores 5. *)
Theorem C3_elapsed_ticks_are_compared :
  final_tracking (run_timer 1000 8 None 10 [advance 5; start])
    = Some (Swtimer.mk_tracking 10 0 5) /\
  final_poll (run_timer 1000 8 None 10 [advance 5; start]) = Ret 5 /\
  final_tracking (run_timer 1000 8 None 10 [advance 5; start; query])
    = Some (Swtimer.mk_tracking 10 0 0) /\
  final_poll (run_timer 1000 8 None 10 [advance 5; start; advance 5]) = Ret 10 /\
  final_tracking (run_timer 1000 8 None 10 [advance 5; start; advance 5; query])
    = Some (Swtimer.mk_tracking 10 1 5).
Proof. repeat split; vm_compute; reflexivity. Qed.

(** C2, evaluated on the code. With invocation limit 3 and a source that
    stays at tick 7 after the start, the third query returns (the count is
    2, because the first query compared the elapsed ticks 0 with the start
    tick 7 and reset the count); it is the fourth query that signals
    starvation.  With invocation limit 1, a start at tick 5 and a source that
    has advanced to tick 10, the first query signals starvation: the elapsed
    ticks 5 equal the stored start tick 5. *)
Theorem C2_starvation_threshold_on_elapsed_ticks :
  starvation_signalled
    (run_timer 1000 8 None 3 [advance 7; start; query; query; query]) = false /\
  final_tracking
    (run_timer 1000 8 None 3 [advance 7; start; query; query; query])
    = Some (Swtimer.mk_tracking 3 2 0) /\
  starvation_signalled
    (run_timer 1000 8 None 3 [advance 7; start; query; query; query; query])
    = true /\
  final_poll (run_timer 1000 8 None 1 [advance 5; start; advance 5]) = Ret 10 /\
  starvation_signalled
    (run_timer 1000 8 None 1 [advance 5; start; advance 5; query]) = true.
Proof. repeat split; vm_compute; reflexivity. Qed.

(** * The timer system beyond the claims *)

(** ** Configuration *)

(** X1. [swtimersys_init] returns exactly when the pointer is non-null and names
    a structure, the tick duration is non-zero and the width is within
    [2,64]; otherwise the first violated assertion, in source order, ends
    the call. *)
Theorem swtimersys_init_returns_iff (m : Swtimersys.store) (p d bits : Z)
    (cb : option Swtimersys.swtimersys_poll_callback_t) :
  ((exists m', Swtimersys.swtimersys_init m p d bits cb = Ret m') <->
   (p <> NULL /\ d <> 0 /\ 2 <= bits <= 64 /\ is_Some (m !! p))) /\
  (p = NULL ->
   Swtimersys.swtimersys_init m p d bits cb = Abort Assert_swtimersys_p) /\
  (p <> NULL -> d = 0 ->
   Swtimersys.swtimersys_init m p d bits cb = Abort Assert_tick_duration_ns) /\
  (p <> NULL -> d <> 0 -> bits < 2 \/ 64 < bits ->
   Swtimersys.swtimersys_init m p d bits cb = Abort Assert_timer_width_bits).
Proof.
  split; [split|split; [|split]].
  - intros [m' H]. apply swtimersys_init_inv in H as (Hp & Hd & Hb & old & Ho).
    repeat split; try assumption; try lia. now exists old.
  - intros (Hp & Hd & Hb & old & Ho). eexists.
    apply (swtimersys_init_ok m p d bits cb old Hp Hd Hb Ho).
  - intros ->. reflexivity.
  - intros Hp ->. unfold Swtimersys.swtimersys_init.
    destruct (Z.eqb_spec p NULL); [contradiction|]. reflexivity.
  - intros Hp Hd Hb. unfold Swtimersys.swtimersys_init,
      Swtimersys.TIMER_BITS_MIN, Swtimersys.TIMER_BITS_MAX.
    destruct (Z.eqb_spec p NULL); [contradiction|].
    destruct (Z.eqb_spec d 0); [contradiction|].
    destruct (Z.leb_spec 2 bits); destruct (Z.leb_spec bits 64);
      try reflexivity; lia.
Qed.

Lemma swtimersys_init_returns_iff_witness :
  Swtimersys.swtimersys_init fresh_store sys_addr 1000 65 None
    = Abort Assert_timer_width_bits /\
  Swtimersys.swtimersys_init fresh_store sys_addr 0 65 None
    = Abort Assert_tick_duration_ns /\
  exists m', Swtimersys.swtimersys_init fresh_store sys_addr 1000 8 None
             = Ret m'.
Proof.
  split; [|split].
  - apply (swtimersys_init_returns_iff fresh_store sys_addr 1000 65 None);
      [vm_compute; discriminate | lia | lia].
  - apply (swtimersys_init_returns_iff fresh_store sys_addr 0 65 None);
      [vm_compute; discriminate | reflexivity].
  - apply (swtimersys_init_returns_iff fresh_store sys_addr 1000 8 None).
    split; [vm_compute; discriminate|]. split; [lia|]. split; [lia|].
    exists zeroed_swtimersys. vm_compute. reflexivity.
Defined.

(** X2. Reading back what [swtimersys_init] configured: the getters return the
    tick duration and the mask [2^bits - 1], a timer system without callback
    polls 0, and [swtimer_init] hands a timer that holds copies of the
    duration and the mask, a zero start tick, a zero invocation count and the
    given limit. *)
Theorem swtimersys_init_then_read (m m' : Swtimersys.store) (p d bits : Z)
    (cb : option Swtimersys.swtimersys_poll_callback_t) :
  Swtimersys.swtimersys_init m p d bits cb = Ret m' ->
  Swtimersys.swtimersys_get_tick_duration_ns m' p = Ret d /\
  Swtimersys.swtimersys_get_timer_mask m' p = Ret (2 ^ bits - 1) /\
  (cb = None -> forall hw, Swtimersys.swtimersys_poll_timer m' hw p = Ret 0) /\
  (forall limit : Z,
     Swtimer.swtimer_init m' p limit =
       Ret (Swtimer.mk_swtimer p 0 d (2 ^ bits - 1)
              (Swtimer.mk_tracking limit 0 0))).
Proof.
  intros Hinit.
  destruct (swtimersys_init_inv _ _ _ _ _ _ Hinit)
    as (Hp & Hd & Hb & old & Hold).
  rewrite (swtimersys_init_ok m p d bits cb old Hp Hd Hb Hold) in Hinit.
  injection Hinit as <-.
  unfold Swtimer.swtimer_init, Swtimersys.swtimersys_get_tick_duration_ns,
    Swtimersys.swtimersys_get_timer_mask, Swtimersys.swtimersys_poll_timer,
    Swtimersys.deref.
  rewrite lookup_insert_eq.
  destruct (Z.eqb_spec p NULL); [contradiction|]. cbn.
  rewrite create_mask_spec by lia.
  split; [reflexivity|]. split; [reflexivity|]. split; [|reflexivity].
  intros -> hw. reflexivity.
Qed.

Lemma swtimersys_init_then_read_witness :
  Swtimersys.swtimersys_get_tick_duration_ns configured_store sys_addr
    = Ret 1000 /\
  Swtimersys.swtimersys_get_timer_mask configured_store sys_addr
    = Ret (2 ^ 8 - 1).
Proof.
  assert (H : Swtimersys.swtimersys_init fresh_store sys_addr 1000 8 None
              = Ret configured_store) by (vm_compute; reflexivity).
  destruct (swtimersys_init_then_read _ _ _ _ _ _ H) as (H1 & H2 & _).
  split; [exact H1 | exact H2].
Defined.

(** ** Ticks *)

(** X3. Initialising again with the same arguments, after any sequence of ticks,
    gives back the store as the first initialisation left it: the counter
    restarts at 0 and nothing else moves. *)
Theorem swtimersys_init_again_resets (m m1 m2 : Swtimersys.store)
    (p d bits : Z) (cb : option Swtimersys.swtimersys_poll_callback_t)
    (deltas : list Z) :
  Swtimersys.swtimersys_init m p d bits cb = Ret m1 ->
  tick_all deltas m1 p = Ret m2 ->
  Swtimersys.swtimersys_init m2 p d bits cb = Ret m1.
Proof.
  intros Hinit Hticks.
  destruct (swtimersys_init_inv _ _ _ _ _ _ Hinit)
    as (Hp & Hd & Hb & old & Hold).
  rewrite (swtimersys_init_ok m p d bits cb old Hp Hd Hb Hold) in Hinit.
  injection Hinit as <-.
  destruct (tick_all_store deltas _ _ p _ (lookup_insert_eq _ _ _) Hticks)
    as [c ->].
  rewrite insert_insert_eq.
  erewrite swtimersys_init_ok; [|assumption..|apply lookup_insert_eq].
  rewrite insert_insert_eq. reflexivity.
Qed.

Lemma swtimersys_init_again_resets_witness :
  Swtimersys.swtimersys_init
    (<[sys_addr := Swtimersys.mk_swtimersys None 44 1000 0 255 NULL]>
       fresh_store) sys_addr 1000 8 None
  = Ret configured_store.
Proof.
  apply (swtimersys_init_again_resets fresh_store configured_store _
           sys_addr 1000 8 None [200; 100]); vm_compute; reflexivity.
Defined.

(** X4. [swtimersys_tick] touches one timer system and, there, the tick counter
    only: every other timer system of the store, and the callback, the tick
    duration, the width, the mask and the user data of the advanced one, stay
    as they were. *)
Theorem swtimersys_tick_frame (m m' : Swtimersys.store) (p n : Z) :
  Swtimersys.swtimersys_tick m p n = Ret m' ->
  (forall q : Z, q <> p -> m' !! q = m !! q) /\
  exists s s',
    m !! p = Some s /\ m' !! p = Some s' /\
    s' = Swtimersys.set_tick_counter (Swtimersys.tick_counter s') s.
Proof.
  intros Ht. apply swtimersys_tick_inv in Ht as (_ & _ & s & Hs & ->).
  split.
  - intros q Hq. now apply lookup_insert_ne.
  - exists s, (ticked s n). split; [exact Hs|].
    split; [apply lookup_insert_eq | reflexivity].
Qed.

Lemma swtimersys_tick_frame_witness :
  (<[sys_addr := Swtimersys.mk_swtimersys None 200 1000 0 255 NULL]>
     (<[8192 := zeroed_swtimersys]> configured_store) : Swtimersys.store)
    !! 8192
  = (<[8192 := zeroed_swtimersys]> configured_store : Swtimersys.store)
      !! 8192.
Proof.
  refine (proj1 (swtimersys_tick_frame
                   (<[8192 := zeroed_swtimersys]> configured_store) _
                   sys_addr 200 _) 8192 _).
  - vm_compute. reflexivity.
  - vm_compute. discriminate.
Defined.

(** The timer system a sequence of ticks leaves at [p]. *)
Lemma tick_all_lookup (deltas : list Z) :
  forall (m m' : Swtimersys.store) (p w : Z) (s : Swtimersys.swtimersys_t),
  m !! p = Some s -> 0 <= w <= 64 ->
  Swtimersys.timer_mask s = 2 ^ w - 1 -> counter_in_mask s ->
  tick_all deltas m p = Ret m' ->
  m' !! p = Some (Swtimersys.set_tick_counter
                    ((Swtimersys.tick_counter s + sum_ticks deltas) mod 2 ^ w)
                    s).
Proof.
  induction deltas as [|d ds IH]; intros m m' p w s Hm Hw Hmask Hinv;
    cbn [tick_all sum_ticks fold_right].
  - intros [= <-]. rewrite Hm, Z.add_0_r. f_equal.
    rewrite Z.mod_small by (unfold counter_in_mask in Hinv; lia).
    now destruct s.
  - destruct (Swtimersys.swtimersys_tick m p d) as [m1|f] eqn:Ht;
      [|discriminate]. cbn [bind]. intros Hrest.
    apply swtimersys_tick_inv in Ht as (_ & _ & s0 & Hs0 & ->).
    rewrite Hm in Hs0. injection Hs0 as <-.
    assert (Hpos : 0 < 2 ^ w) by (apply Z.pow_pos_nonneg; lia).
    destruct (ticked_counter_in_mask s d ltac:(lia)) as [Hinv1 Hmask1].
    rewrite (IH _ _ p w (ticked s d) (lookup_insert_eq _ _ _) Hw
               ltac:(congruence) Hinv1 Hrest).
    unfold ticked, Swtimersys.set_tick_counter.
    cbn [Swtimersys.tick_counter Swtimersys.poll_cb
         Swtimersys.tick_duration_ns Swtimersys.timer_width_bits
         Swtimersys.timer_mask Swtimersys.user_data_p].
    rewrite Hmask, land_wrap64_mask by lia.
    fold (sum_ticks ds). rewrite Z.add_mod_idemp_l by lia.
    do 3 f_equal. lia.
Qed.

(** X5. A sequence of ticks adds up: on a timer system whose mask is
    [2^w - 1] and whose counter is within the mask, the counter after the
    ticks is the old counter plus the total of the tick counts, modulo
    [2^w]. *)
Theorem tick_all_counter_sum (deltas : list Z) (m m' : Swtimersys.store)
    (p w : Z) (s : Swtimersys.swtimersys_t) :
  m !! p = Some s -> 0 <= w <= 64 ->
  Swtimersys.timer_mask s = 2 ^ w - 1 -> counter_in_mask s ->
  tick_all deltas m p = Ret m' ->
  exists s', m' !! p = Some s' /\
    Swtimersys.tick_counter s'
      = (Swtimersys.tick_counter s + sum_ticks deltas) mod 2 ^ w /\
    Swtimersys.timer_mask s' = 2 ^ w - 1.
Proof.
  intros Hm Hw Hmask Hinv Ht.
  pose proof (tick_all_lookup deltas m m' p w s Hm Hw Hmask Hinv Ht) as Hl.
  eexists. split; [exact Hl|]. cbn. split; [reflexivity | exact Hmask].
Qed.

Lemma tick_all_counter_sum_witness :
  exists s',
    (<[sys_addr := Swtimersys.mk_swtimersys None 44 1000 0 255 NULL]>
       fresh_store : Swtimersys.store) !! sys_addr = Some s' /\
    Swtimersys.tick_counter s' = (0 + sum_ticks [200; 100]) mod 2 ^ 8 /\
    Swtimersys.timer_mask s' = 2 ^ 8 - 1.
Proof.
  apply (tick_all_counter_sum [200; 100] configured_store _ sys_addr 8
           (Swtimersys.mk_swtimersys None 0 1000 0 255 NULL)).
  - vm_compute. reflexivity.
  - lia.
  - reflexivity.
  - unfold counter_in_mask. cbn. lia.
  - vm_compute. reflexivity.
Defined.

(** X6. A timer system with a poll callback ignores ticks: whatever the hardware
    reads, a poll after [swtimersys_tick] returns what a poll before it
    returns. *)
Theorem swtimersys_tick_ignored_with_callback (m m' : Swtimersys.store)
    (p n : Z) (s : Swtimersys.swtimersys_t)
    (cb : Swtimersys.swtimersys_poll_callback_t) :
  m !! p = Some s -> Swtimersys.poll_cb s = Some cb ->
  Swtimersys.swtimersys_tick m p n = Ret m' ->
  forall hw : hw_regs,
    Swtimersys.swtimersys_poll_timer m' hw p
      = Swtimersys.swtimersys_poll_timer m hw p /\
    Swtimersys.swtimersys_poll_timer m hw p
      = Ret (wrap64 (cb (Swtimersys.user_data_p s) hw)).
Proof.
  intros Hm Hcb Ht hw.
  apply swtimersys_tick_inv in Ht as (Hp & _ & s0 & Hs0 & ->).
  rewrite Hm in Hs0. injection Hs0 as <-.
  rewrite (swtimersys_poll_timer_spec _ hw p (ticked s n) Hp
             (lookup_insert_eq _ _ _)).
  rewrite (swtimersys_poll_timer_spec m hw p s Hp Hm).
  cbn. rewrite Hcb. split; reflexivity.
Qed.

Lemma swtimersys_tick_ignored_with_callback_witness :
  Swtimersys.swtimersys_poll_timer
    (<[sys_addr := Swtimersys.mk_swtimersys (Some poll_register) 9 1000 0 255
                     64]> fresh_store) regs_by_address sys_addr
  = Ret 164.
Proof.
  pose (s := Swtimersys.mk_swtimersys (Some poll_register) 0 1000 0 255 64).
  pose (m := (<[sys_addr := s]> fresh_store : Swtimersys.store)).
  assert (Hm : m !! sys_addr = Some s) by (vm_compute; reflexivity).
  assert (Ht : Swtimersys.swtimersys_tick m sys_addr 9 =
               Ret (<[sys_addr := Swtimersys.mk_swtimersys
                                    (Some poll_register) 9 1000 0 255 64]>
                      fresh_store))
    by (vm_compute; reflexivity).
  destruct (swtimersys_tick_ignored_with_callback m _ sys_addr 9 s
              poll_register Hm eq_refl Ht regs_by_address) as [H1 H2].
  rewrite H1. exact H2.
Defined.

(** ** The mask for any bit count *)

Lemma create_mask_loop_add (a b : nat) (mask : Z) :
  Swtimersys.create_mask_loop (a + b) mask
    = Swtimersys.create_mask_loop b (Swtimersys.create_mask_loop a mask).
Proof.
  revert mask. induction a as [|a IH]; intros mask; cbn; [reflexivity|].
  apply IH.
Qed.

Lemma create_mask_loop_full (n : nat) :
  Swtimersys.create_mask_loop n UINT64_MAX = UINT64_MAX.
Proof.
  induction n as [|n IH]; cbn [Swtimersys.create_mask_loop]; [reflexivity|].
  replace (Z.lor (wrap64 (Z.shiftl UINT64_MAX 1)) 1) with UINT64_MAX
    by (vm_compute; reflexivity).
  exact IH.
Qed.

(** X7. [create_mask] takes a [uint8_t], so it can be asked for more than 64
    bits: the mask is [2^bits - 1] up to 64 bits and stays at the all-ones
    value [UINT64_MAX] beyond; no bits give the empty mask. *)
Theorem create_mask_saturates (bits : Z) :
  0 <= bits ->
  Swtimersys.create_mask bits = 2 ^ Z.min bits 64 - 1 /\
  (64 <= bits -> Swtimersys.create_mask bits = UINT64_MAX) /\
  Swtimersys.create_mask 0 = 0.
Proof.
  intros Hb.
  assert (Hhigh : 64 <= bits -> Swtimersys.create_mask bits = UINT64_MAX).
  { intros Hge. unfold Swtimersys.create_mask.
    replace (Z.to_nat bits) with (64 + Z.to_nat (bits - 64))%nat by lia.
    rewrite create_mask_loop_add.
    change (Swtimersys.create_mask_loop 64 0) with (Swtimersys.create_mask 64).
    rewrite create_mask_spec by lia.
    apply create_mask_loop_full. }
  split; [|split; [exact Hhigh | reflexivity]].
  destruct (Z.le_gt_cases bits 64) as [Hle|Hgt].
  - rewrite Z.min_l by lia. apply create_mask_spec. lia.
  - rewrite Z.min_r by lia. apply Hhigh. lia.
Qed.

Lemma create_mask_saturates_witness :
  Swtimersys.create_mask 255 = UINT64_MAX.
Proof. apply (create_mask_saturates 255); lia. Defined.

(** * The timer beyond the claims *)

(** ** Elapsed ticks on the ring *)

Lemma get_elapsed_ticks_back (w s c : Z) :
  0 <= w <= 64 -> 0 <= s < 2 ^ w -> 0 <= c < 2 ^ w ->
  (s + Swtimer.get_elapsed_ticks (2 ^ w - 1) s c) mod 2 ^ w = c.
Proof.
  intros Hw Hs Hc. pose proof (pow2_le_64 w Hw) as HM.
  rewrite get_elapsed_ticks_ring by lia.
  rewrite Z.add_mod_idemp_r by lia.
  replace (s + (c - s)) with c by lia. apply Z.mod_small. lia.
Qed.

Lemma get_elapsed_ticks_inj (w s c c' : Z) :
  0 <= w <= 64 -> 0 <= s < 2 ^ w -> 0 <= c < 2 ^ w -> 0 <= c' < 2 ^ w ->
  Swtimer.get_elapsed_ticks (2 ^ w - 1) s c
    = Swtimer.get_elapsed_ticks (2 ^ w - 1) s c' -> c = c'.
Proof.
  intros Hw Hs Hc Hc' Heq.
  rewrite <- (get_elapsed_ticks_back w s c Hw Hs Hc),
          <- (get_elapsed_ticks_back w s c' Hw Hs Hc'), Heq.
  reflexivity.
Qed.

(** X8. The elapsed ticks lead from the start tick back to the current tick:
    for ticks below [2^w], the result of [get_elapsed_ticks] is itself below
    [2^w], and the start tick plus the result, modulo [2^w], is the current
    tick.  So two different current ticks never give the same elapsed
    ticks. *)
Theorem get_elapsed_ticks_round_trip (w s c c' : Z) :
  0 <= w <= 64 -> 0 <= s < 2 ^ w -> 0 <= c < 2 ^ w -> 0 <= c' < 2 ^ w ->
  0 <= Swtimer.get_elapsed_ticks (2 ^ w - 1) s c < 2 ^ w /\
  (s + Swtimer.get_elapsed_ticks (2 ^ w - 1) s c) mod 2 ^ w = c /\
  (Swtimer.get_elapsed_ticks (2 ^ w - 1) s c
     = Swtimer.get_elapsed_ticks (2 ^ w - 1) s c' -> c = c').
Proof.
  intros Hw Hs Hc Hc'.
  pose proof (pow2_le_64 w Hw) as HM.
  split; [|split].
  - rewrite get_elapsed_ticks_ring by lia. apply Z.mod_pos_bound. lia.
  - now apply get_elapsed_ticks_back.
  - now apply get_elapsed_ticks_inj.
Qed.

Lemma get_elapsed_ticks_round_trip_witness :
  0 <= Swtimer.get_elapsed_ticks (2 ^ 8 - 1) 250 2 < 2 ^ 8 /\
  (250 + Swtimer.get_elapsed_ticks (2 ^ 8 - 1) 250 2) mod 2 ^ 8 = 2.
Proof.
  destruct (get_elapsed_ticks_round_trip 8 250 2 2) as (H1 & H2 & _);
    [lia | lia | lia | lia |].
  split; [exact H1 | exact H2].
Defined.

(** X9. Elapsed ticks compose: the ticks elapsed from [s] to [c2] are the ticks
    elapsed from [s] to [c1] plus those from [c1] to [c2], modulo [2^w]. *)
Theorem get_elapsed_ticks_chain (w s c1 c2 : Z) :
  0 <= w <= 64 -> 0 <= s < 2 ^ w -> 0 <= c1 < 2 ^ w -> 0 <= c2 < 2 ^ w ->
  Swtimer.get_elapsed_ticks (2 ^ w - 1) s c2 =
    (Swtimer.get_elapsed_ticks (2 ^ w - 1) s c1
     + Swtimer.get_elapsed_ticks (2 ^ w - 1) c1 c2) mod 2 ^ w.
Proof.
  intros Hw Hs Hc1 Hc2. pose proof (pow2_le_64 w Hw) as HM.
  rewrite !get_elapsed_ticks_ring by lia.
  rewrite <- Z.add_mod by lia. f_equal. lia.
Qed.

Lemma get_elapsed_ticks_chain_witness :
  Swtimer.get_elapsed_ticks (2 ^ 8 - 1) 250 2 =
    (Swtimer.get_elapsed_ticks (2 ^ 8 - 1) 250 255
     + Swtimer.get_elapsed_ticks (2 ^ 8 - 1) 255 2) mod 2 ^ 8.
Proof. apply (get_elapsed_ticks_chain 8 250 255 2); lia. Defined.

(** ** Resolutions agree with one another *)

(** X10. Whatever the tick count and the tick duration, the results of
    [get_time_for_tick_count] fit 64 bits, each coarser resolution is the
    next finer one divided by 1000, and the microsecond value times 1000
    falls short of the nanosecond value by less than 1000. *)
Theorem get_time_for_tick_count_resolutions (d t : Z) :
  let ns := Swtimer.get_time_for_tick_count d t Swtimer.SWTIMER_NS in
  let us := Swtimer.get_time_for_tick_count d t Swtimer.SWTIMER_US in
  let ms := Swtimer.get_time_for_tick_count d t Swtimer.SWTIMER_MS in
  let sec := Swtimer.get_time_for_tick_count d t Swtimer.SWTIMER_S in
  0 <= ns <= UINT64_MAX /\
  us = ns / 1000 /\ ms = us / 1000 /\ sec = ms / 1000 /\
  0 <= sec <= ms /\ ms <= us /\ us <= ns /\
  1000 * us <= ns < 1000 * us + 1000.
Proof.
  destruct (get_time_for_tick_count_cases d t) as (-> & -> & -> & -> & _).
  pose proof (wrap64_range (t * d)) as Hr. cbv zeta.
  generalize dependent (wrap64 (t * d)). intros p Hr.
  unfold UINT64_MAX.
  assert (Hms : p / 1000000 = p / 1000 / 1000)
    by (rewrite Z.div_div by lia; reflexivity).
  assert (Hs : p / 1000000000 = p / 1000000 / 1000)
    by (rewrite Z.div_div by lia; reflexivity).
  rewrite Hs, Hms.
  pose proof (Z.div_mod p 1000 ltac:(lia)) as E1.
  pose proof (Z.mod_pos_bound p 1000 ltac:(lia)) as B1.
  pose proof (Z.div_mod (p / 1000) 1000 ltac:(lia)) as E2.
  pose proof (Z.mod_pos_bound (p / 1000) 1000 ltac:(lia)) as B2.
  pose proof (Z.div_mod (p / 1000 / 1000) 1000 ltac:(lia)) as E3.
  pose proof (Z.mod_pos_bound (p / 1000 / 1000) 1000 ltac:(lia)) as B3.
  repeat split; try reflexivity; lia.
Qed.

(** ** The invocation count *)

(** X11. [manage_invocation_count] keeps the invocation count a [uint64_t]: it
    moves it by at most one, stops at [UINT64_MAX] instead of wrapping to 0,
    resets it to 0 on a tick count other than the last one, records the tick
    count and does not touch the limit. *)
Theorem manage_invocation_count_saturates
    (st : Swtimer.swtimer_starvation_tracking_t) (tick_count : Z) :
  0 <= Swtimer.invocation_count st <= UINT64_MAX ->
  let st' := Swtimer.manage_invocation_count st tick_count in
  0 <= Swtimer.invocation_count st' <= UINT64_MAX /\
  Swtimer.invocation_count st' <= Swtimer.invocation_count st + 1 /\
  (Swtimer.last_tick_count st = tick_count ->
   Swtimer.invocation_count st = UINT64_MAX ->
   Swtimer.invocation_count st' = UINT64_MAX) /\
  (Swtimer.last_tick_count st <> tick_count ->
   Swtimer.invocation_count st' = 0) /\
  Swtimer.last_tick_count st' = tick_count /\
  Swtimer.invocation_limit st' = Swtimer.invocation_limit st.
Proof.
  intros Hc. destruct st as [limit c l]. cbn in Hc. cbv zeta.
  unfold Swtimer.manage_invocation_count.
  cbn [Swtimer.last_tick_count Swtimer.invocation_count
       Swtimer.invocation_limit].
  destruct (Z.eqb_spec l tick_count) as [Heq|Hne].
  - destruct (Z.ltb_spec c UINT64_MAX) as [Hlt|Hge]; cbn;
      repeat split; try lia; try congruence.
  - cbn. unfold UINT64_MAX. repeat split; try lia; try congruence.
Qed.

Lemma manage_invocation_count_saturates_witness :
  Swtimer.invocation_count
    (Swtimer.manage_invocation_count
       (Swtimer.mk_tracking 5 UINT64_MAX 7) 7) = UINT64_MAX.
Proof.
  refine (proj1 (proj2 (proj2
    (manage_invocation_count_saturates
       (Swtimer.mk_tracking 5 UINT64_MAX 7) 7 _))) eq_refl eq_refl).
  cbn. unfold UINT64_MAX. lia.
Defined.

(** ** What a query changes *)

Lemma swtimer_get_time_binding (m : Swtimersys.store) (hw : hw_regs)
    (t t' : Swtimer.swtimer_t) (r v : Z) :
  Swtimer.swtimer_get_time m hw t r = Ret (v, t') -> same_binding t t'.
Proof.
  intros H. apply swtimer_get_time_ret in H as (tick & _ & _ & Hst & Ht').
  assert (Hlim : Swtimer.invocation_limit (Swtimer.starvation_tracking t')
                 = Swtimer.invocation_limit (Swtimer.starvation_tracking t)).
  { pose proof (f_equal snd Hst) as Hsnd. cbn [snd] in Hsnd.
    rewrite <- Hsnd. unfold Swtimer.is_timer_starving.
    destruct (negb _); cbn [snd]; [reflexivity|].
    unfold Swtimer.manage_invocation_count.
    destruct (_ =? _); [destruct (_ <? _)|]; reflexivity. }
  unfold same_binding. rewrite Hlim, Ht'. cbn. auto.
Qed.

Lemma swtimer_start_binding (m : Swtimersys.store) (hw : hw_regs)
    (t t1 : Swtimer.swtimer_t) :
  Swtimer.swtimer_start m hw t = Ret t1 -> same_binding t t1.
Proof.
  unfold Swtimer.swtimer_start.
  destruct (Swtimersys.swtimersys_poll_timer m hw (Swtimer.swtimersys_p t))
    as [tick|f]; cbn [bind]; [|discriminate].
  intros [= <-]. unfold same_binding. cbn. auto.
Qed.

(** X12. [swtimer_get_time] takes the timer through a pointer to [const], and
    what it changes is the starvation tracking alone: the binding, the start
    tick, the tick duration, the mask and the invocation limit are as before,
    and with a zero invocation limit the whole timer is. *)
Theorem swtimer_get_time_leaves_timer (m : Swtimersys.store) (hw : hw_regs)
    (t t' : Swtimer.swtimer_t) (r v : Z) :
  Swtimer.swtimer_get_time m hw t r = Ret (v, t') ->
  same_binding t t' /\
  Swtimer.start_tick_count t' = Swtimer.start_tick_count t /\
  (Swtimer.invocation_limit (Swtimer.starvation_tracking t) = 0 -> t' = t).
Proof.
  intros H. pose proof (swtimer_get_time_binding _ _ _ _ _ _ H) as Hbind.
  apply swtimer_get_time_ret in H as (tick & _ & _ & Hst & Ht').
  split; [|split].
  - exact Hbind.
  - rewrite Ht'. reflexivity.
  - intros H0. rewrite is_timer_starving_disabled in Hst by exact H0.
    injection Hst as Hst. rewrite Ht', <- Hst. now destruct t.
Qed.

Lemma swtimer_get_time_leaves_timer_witness :
  same_binding (bound_timer 3)
    (Swtimer.mk_swtimer sys_addr 0 1000 255 (Swtimer.mk_tracking 3 1 0)).
Proof.
  apply (swtimer_get_time_leaves_timer configured_store (regs_at 0)
           (bound_timer 3) _ Swtimer.SWTIMER_TIMERTICK 0).
  vm_compute. reflexivity.
Defined.

(** ** Starting *)

(** X13. [swtimer_start] takes the polled tick as the start tick and as the last
    tick count and keeps the binding; starting again while the source reads
    the same changes nothing. *)
Theorem swtimer_start_idempotent (m : Swtimersys.store) (hw : hw_regs)
    (t t1 : Swtimer.swtimer_t) :
  Swtimer.swtimer_start m hw t = Ret t1 ->
  Swtimer.swtimer_start m hw t1 = Ret t1 /\
  Swtimersys.swtimersys_poll_timer m hw (Swtimer.swtimersys_p t)
    = Ret (Swtimer.start_tick_count t1) /\
  Swtimer.last_tick_count (Swtimer.starvation_tracking t1)
    = Swtimer.start_tick_count t1 /\
  same_binding t t1.
Proof.
  unfold Swtimer.swtimer_start.
  destruct (Swtimersys.swtimersys_poll_timer m hw (Swtimer.swtimersys_p t))
    as [tick|f] eqn:Hp; cbn [bind]; [|discriminate].
  intros [= <-].
  cbn [Swtimer.swtimersys_p Swtimer.set_starvation_tracking
       Swtimer.set_start_tick_count].
  rewrite Hp. cbn [bind]. unfold same_binding. cbn.
  repeat split; reflexivity.
Qed.

Lemma swtimer_start_idempotent_witness :
  Swtimer.swtimer_start configured_store (regs_at 0) (bound_timer 3)
    = Ret (bound_timer 3).
Proof.
  apply (swtimer_start_idempotent configured_store (regs_at 0)
           (bound_timer 3)).
  vm_compute. reflexivity.
Defined.

(** ** Runs *)

Lemma exec_call_keeps_binding (c : call) (m m' : Swtimersys.store)
    (t t' : Swtimer.swtimer_t) :
  exec_call c (m, t) = Ret (m', t') -> same_binding t t'.
Proof.
  destruct c as [hw|hw r|q n]; cbn [exec_call fst snd].
  - destruct (Swtimer.swtimer_start m hw t) as [t1|f] eqn:Hs;
      cbn [bind]; [|discriminate].
    intros [= _ <-]. now apply swtimer_start_binding in Hs.
  - destruct (Swtimer.swtimer_get_time m hw t r) as [[v t1]|f] eqn:Hg;
      cbn [bind]; [|discriminate].
    intros [= _ <-]. now apply swtimer_get_time_binding in Hg.
  - destruct (Swtimersys.swtimersys_tick m q n); cbn [bind]; [|discriminate].
    intros [= _ <-]. unfold same_binding. auto.
Qed.

(** X14. No sequence of starts, queries and ticks rebinds a timer or changes the
    tick duration, the mask or the invocation limit it got from
    [swtimer_init]. *)
Theorem exec_keeps_binding (cs : list call) :
  forall (m m' : Swtimersys.store) (t t' : Swtimer.swtimer_t),
  exec cs (m, t) = Ret (m', t') -> same_binding t t'.
Proof.
  induction cs as [|c cs IH]; intros m m' t t'; cbn [exec].
  - intros [= _ <-]. unfold same_binding. auto.
  - destruct (exec_call c (m, t)) as [[m1 t1]|f] eqn:Hc;
      cbn [bind]; [|discriminate].
    intros Hrest. apply exec_call_keeps_binding in Hc.
    apply IH in Hrest.
    destruct Hc as (Hc1 & Hc2 & Hc3 & Hc4).
    destruct Hrest as (Hr1 & Hr2 & Hr3 & Hr4).
    unfold same_binding. repeat split; congruence.
Qed.

Lemma exec_keeps_binding_witness :
  same_binding (bound_timer 3)
    (Swtimer.mk_swtimer sys_addr 7 1000 255 (Swtimer.mk_tracking 3 1 0)).
Proof.
  apply (exec_keeps_binding [advance 7; start; query; query]
           configured_store
           (<[sys_addr := Swtimersys.mk_swtimersys None 7 1000 0 255 NULL]>
              fresh_store)).
  vm_compute. reflexivity.
Defined.

(** ** Starvation tracking between two queries *)

Lemma manage_invocation_count_shape (limit c l e : Z) :
  exists c',
    Swtimer.manage_invocation_count (Swtimer.mk_tracking limit c l) e
      = Swtimer.mk_tracking limit c' e.
Proof.
  unfold Swtimer.manage_invocation_count. cbn.
  destruct (l =? e); [destruct (c <? UINT64_MAX)|]; eexists; reflexivity.
Qed.

(** X15. With starvation tracking enabled, a query that finds the source at
    another tick than the query before it returns and leaves the invocation
    count at 0, whatever the count was: between two queries an advancing
    source is never taken for a starving one. *)
Theorem advancing_source_resets_count (m1 m2 : Swtimersys.store)
    (hw1 hw2 : hw_regs) (t t1 : Swtimer.swtimer_t) (r1 r2 v1 c1 c2 w : Z) :
  0 <= w <= 64 -> Swtimer.timer_mask t = 2 ^ w - 1 ->
  0 <= Swtimer.start_tick_count t < 2 ^ w ->
  0 < Swtimer.invocation_limit (Swtimer.starvation_tracking t) ->
  Swtimersys.swtimersys_poll_timer m1 hw1 (Swtimer.swtimersys_p t) = Ret c1 ->
  0 <= c1 < 2 ^ w ->
  Swtimer.swtimer_get_time m1 hw1 t r1 = Ret (v1, t1) ->
  Swtimersys.swtimersys_poll_timer m2 hw2 (Swtimer.swtimersys_p t) = Ret c2 ->
  0 <= c2 < 2 ^ w -> c2 <> c1 ->
  exists t2,
    Swtimer.swtimer_get_time m2 hw2 t1 r2 =
      Ret (Swtimer.get_time_for_tick_count (Swtimer.tick_duration_ns t)
             ((c2 - Swtimer.start_tick_count t) mod 2 ^ w) r2, t2) /\
    Swtimer.invocation_count (Swtimer.starvation_tracking t2) = 0.
Proof.
  intros Hw Hmask Hs Hlim Hp1 Hc1 Hq1 Hp2 Hc2 Hne.
  pose proof (pow2_le_64 w Hw) as HM.
  destruct t as [p s d mask [limit c l]]. cbn in Hmask, Hs, Hlim, Hp1, Hp2.
  subst mask.
  apply swtimer_get_time_ret in Hq1 as (tick & Hp1' & _ & Hst & Ht1).
  cbn in Hp1', Hst, Ht1. rewrite Hp1 in Hp1'. injection Hp1' as <-.
  rewrite is_timer_starving_enabled in Hst by (cbn; lia).
  destruct (manage_invocation_count_shape limit c l
              (Swtimer.get_elapsed_ticks (2 ^ w - 1) s c1)) as [c' Hm].
  rewrite Hm in Hst. pose proof (f_equal snd Hst) as Htr. cbn [snd] in Htr.
  rewrite <- Htr in Ht1. subst t1. clear Hst Htr Hm.
  unfold Swtimer.swtimer_get_time, Swtimer.set_starvation_tracking.
  cbn [Swtimer.swtimersys_p Swtimer.timer_mask Swtimer.start_tick_count
       Swtimer.tick_duration_ns Swtimer.starvation_tracking].
  rewrite Hp2. cbn [bind].
  rewrite is_timer_starving_enabled by (cbn; lia).
  rewrite manage_invocation_count_other.
  - cbn [Swtimer.invocation_count Swtimer.invocation_limit].
    destruct (Z.geb_spec 0 limit) as [Hge|_]; [lia|]. cbn [negb assert bind].
    rewrite get_elapsed_ticks_ring by lia.
    eexists. split; reflexivity.
  - intros Heq.
    apply Hne. symmetry.
    now apply (get_elapsed_ticks_inj w s c1 c2 Hw Hs Hc1 Hc2).
Qed.

Lemma advancing_source_resets_count_witness :
  exists t2,
    Swtimer.swtimer_get_time
      (<[sys_addr := Swtimersys.mk_swtimersys None 9 1000 0 255 NULL]>
         fresh_store) (regs_at 0)
      (Swtimer.mk_swtimer sys_addr 0 1000 255 (Swtimer.mk_tracking 2 1 0))
      Swtimer.SWTIMER_US
    = Ret (Swtimer.get_time_for_tick_count 1000 ((9 - 0) mod 2 ^ 8)
             Swtimer.SWTIMER_US, t2) /\
    Swtimer.invocation_count (Swtimer.starvation_tracking t2) = 0.
Proof.
  pose (m2 := (<[sys_addr := Swtimersys.mk_swtimersys None 9 1000 0 255 NULL]>
                 fresh_store : Swtimersys.store)).
  apply (advancing_source_resets_count configured_store m2
           (regs_at 0) (regs_at 0) (bound_timer 2) _
           Swtimer.SWTIMER_TIMERTICK Swtimer.SWTIMER_US 0 0 9 8).
  - lia.
  - reflexivity.
  - cbn. lia.
  - cbn. lia.
  - vm_compute. reflexivity.
  - lia.
  - vm_compute. reflexivity.
  - vm_compute. reflexivity.
  - lia.
  - lia.
Defined.

(** A query that finds the source at the start tick sees zero elapsed
    ticks, whatever the resolution and the mode of the timer system. *)
Lemma query_at_start (m : Swtimersys.store) (t : Swtimer.swtimer_t)
    (s : Z) (c : call) :
  query_at m (Swtimer.swtimersys_p t) s c ->
  Swtimer.start_tick_count t = s ->
  exec_call c (m, t) =
    (let '(starving, st) :=
       Swtimer.is_timer_starving (Swtimer.starvation_tracking t) 0 in
     do assert (negb starving) Assert_not_starving in
     Ret (m, Swtimer.set_starvation_tracking st t)).
Proof.
  destruct c as [hw|hw r|q n]; cbn [query_at]; try contradiction.
  intros Hpoll Hstart. cbn [exec_call fst snd].
  unfold Swtimer.swtimer_get_time. rewrite Hpoll, Hstart. cbn [bind].
  unfold Swtimer.get_elapsed_ticks. rewrite Z.leb_refl, Z.sub_diag.
  destruct (Swtimer.is_timer_starving (Swtimer.starvation_tracking t) 0)
    as [starving st].
  destruct starving; reflexivity.
Qed.

Lemma queries_at_start_count (m : Swtimersys.store) (p s limit : Z)
    (cs : list call) :
  forall (t : Swtimer.swtimer_t) (c : Z),
  Swtimer.swtimersys_p t = p -> Swtimer.start_tick_count t = s ->
  Forall (query_at m p s) cs ->
  Swtimer.starvation_tracking t = Swtimer.mk_tracking limit c 0 ->
  0 <= c -> c + Z.of_nat (length cs) < limit -> limit <= UINT64_MAX ->
  exec cs (m, t) =
    Ret (m, Swtimer.set_starvation_tracking
              (Swtimer.mk_tracking limit (c + Z.of_nat (length cs)) 0) t).
Proof.
  induction cs as [|q cs IH]; intros t c Hp Hstart Hall Htr Hc Hlt Hmax.
  - cbn. rewrite Z.add_0_r, <- Htr. now destruct t.
  - apply Forall_cons in Hall as [Hq Hall].
    cbn [length] in Hlt. cbn [exec].
    rewrite <- Hp in Hq. rewrite (query_at_start m t s q Hq Hstart), Htr.
    rewrite is_timer_starving_enabled
      by (cbn [Swtimer.invocation_limit]; lia).
    rewrite manage_invocation_count_same by lia.
    cbn [Swtimer.invocation_limit Swtimer.invocation_count].
    destruct (Z.geb_spec (c + 1) limit) as [Hge|_]; [lia|].
    cbn [negb assert bind].
    rewrite (IH _ (c + 1)); try assumption; try reflexivity; try lia.
    unfold Swtimer.set_starvation_tracking.
    cbn [Swtimer.swtimersys_p Swtimer.start_tick_count
         Swtimer.tick_duration_ns Swtimer.timer_mask length].
    do 4 f_equal. lia.
Qed.

(** X16. While every poll returns the start tick (from the tick counter or
    from a poll callback) and the last recorded value is the elapsed count
    0, each [swtimer_get_time], at whatever resolution, adds one to the
    invocation count: the queries return as long as the count stays below
    the limit, and the query that brings the count up to the limit ends on
    the starvation assertion. *)
Theorem static_queries_reach_limit (m : Swtimersys.store)
    (t : Swtimer.swtimer_t) (s c : Z) (cs : list call) (last : call) :
  Swtimer.start_tick_count t = s -> 0 <= c ->
  Forall (query_at m (Swtimer.swtimersys_p t) s) cs ->
  query_at m (Swtimer.swtimersys_p t) s last ->
  Swtimer.starvation_tracking t
    = Swtimer.mk_tracking (c + Z.of_nat (length cs) + 1) c 0 ->
  c + Z.of_nat (length cs) + 1 <= UINT64_MAX ->
  exec cs (m, t) =
    Ret (m, Swtimer.set_starvation_tracking
              (Swtimer.mk_tracking (c + Z.of_nat (length cs) + 1)
                 (c + Z.of_nat (length cs)) 0) t)
  /\ exec (cs ++ [last]) (m, t) = Abort Assert_not_starving.
Proof.
  intros Hstart Hc Hall Hlast Htr Hmax.
  set (limit := c + Z.of_nat (length cs) + 1) in *.
  assert (Hfirst : exec cs (m, t) =
            Ret (m, Swtimer.set_starvation_tracking
                      (Swtimer.mk_tracking limit (c + Z.of_nat (length cs)) 0)
                      t)).
  { apply (queries_at_start_count m (Swtimer.swtimersys_p t) s limit cs t c);
      try assumption; try reflexivity.
    unfold limit. lia. }
  split; [exact Hfirst|].
  rewrite exec_app, Hfirst. cbn [bind exec].
  rewrite (query_at_start m
             (Swtimer.set_starvation_tracking
                (Swtimer.mk_tracking limit (c + Z.of_nat (length cs)) 0) t)
             s last Hlast Hstart).
  cbn [Swtimer.starvation_tracking Swtimer.set_starvation_tracking].
  rewrite is_timer_starving_enabled
    by (cbn [Swtimer.invocation_limit]; unfold limit; lia).
  rewrite manage_invocation_count_same by lia.
  cbn [Swtimer.invocation_limit Swtimer.invocation_count].
  destruct (Z.geb_spec (c + Z.of_nat (length cs) + 1) limit) as [_|Hlt];
    [reflexivity | unfold limit in Hlt; lia].
Qed.

Lemma static_queries_reach_limit_witness :
  exec [Call_get_time (regs_at 7) Swtimer.SWTIMER_S;
        Call_get_time (regs_at 7) Swtimer.SWTIMER_NS;
        Call_get_time (regs_at 7) Swtimer.SWTIMER_TIMERTICK;
        Call_get_time (regs_at 7) Swtimer.SWTIMER_MS]
    (<[sys_addr := Swtimersys.mk_swtimersys (Some poll_register) 0 1000 0 255
                     64]> fresh_store,
     Swtimer.mk_swtimer sys_addr 7 1000 255 (Swtimer.mk_tracking 4 0 0))
  = Abort Assert_not_starving.
Proof.
  pose (m := (<[sys_addr := Swtimersys.mk_swtimersys (Some poll_register) 0
                              1000 0 255 64]> fresh_store
              : Swtimersys.store)).
  pose (t := Swtimer.mk_swtimer sys_addr 7 1000 255
               (Swtimer.mk_tracking 4 0 0)).
  assert (Hq : forall r, query_at m (Swtimer.swtimersys_p t) 7
                           (Call_get_time (regs_at 7) r))
    by (intros r; vm_compute; reflexivity).
  refine (proj2 (static_queries_reach_limit m t 7 0
                   [Call_get_time (regs_at 7) Swtimer.SWTIMER_S;
                    Call_get_time (regs_at 7) Swtimer.SWTIMER_NS;
                    Call_get_time (regs_at 7) Swtimer.SWTIMER_TIMERTICK]
                   (Call_get_time (regs_at 7) Swtimer.SWTIMER_MS)
                   _ _ _ _ _ _)).
  - reflexivity.
  - lia.
  - repeat constructor; apply Hq.
  - apply Hq.
  - reflexivity.
  - vm_compute. discriminate.
Defined.

(** ** From configuration to a measurement *)

Lemma swtimer_init_ok (m : Swtimersys.store) (p limit : Z)
    (s : Swtimersys.swtimersys_t) :
  p <> NULL -> m !! p = Some s ->
  Swtimer.swtimer_init m p limit =
    Ret (Swtimer.mk_swtimer p 0 (Swtimersys.tick_duration_ns s)
           (Swtimersys.timer_mask s) (Swtimer.mk_tracking limit 0 0)).
Proof.
  intros Hp Hm.
  unfold Swtimer.swtimer_init, Swtimersys.swtimersys_get_tick_duration_ns,
    Swtimersys.swtimersys_get_timer_mask, Swtimersys.deref.
  rewrite Hm. destruct (Z.eqb_spec p NULL); [contradiction|]. reflexivity.
Qed.

Lemma swtimer_init_inv (m : Swtimersys.store) (p limit : Z)
    (t : Swtimer.swtimer_t) :
  Swtimer.swtimer_init m p limit = Ret t ->
  p <> NULL /\ exists s, m !! p = Some s.
Proof.
  unfold Swtimer.swtimer_init, Swtimersys.swtimersys_get_tick_duration_ns,
    Swtimersys.deref.
  destruct (Z.eqb_spec p NULL); [discriminate|]. cbn.
  destruct (m !! p) as [s|]; [|discriminate].
  intros _. split; [assumption|]. now exists s.
Qed.

(** X17. End to end in tick mode.  A timer system is configured without poll
    callback and ticked; a timer with starvation tracking disabled is bound
    to it and started; the timer system is ticked further.  A query then
    returns the conversion of the total of the ticks since the start, modulo
    [2^bits], and leaves the timer as it was. *)
Theorem measurement_in_tick_mode (m m0 m1 m2 : Swtimersys.store)
    (p d bits r : Z) (before_start since_start : list Z)
    (hw hw' : hw_regs) (t0 t1 : Swtimer.swtimer_t) :
  Swtimersys.swtimersys_init m p d bits None = Ret m0 ->
  tick_all before_start m0 p = Ret m1 ->
  Swtimer.swtimer_init m1 p 0 = Ret t0 ->
  Swtimer.swtimer_start m1 hw t0 = Ret t1 ->
  tick_all since_start m1 p = Ret m2 ->
  Swtimer.swtimer_get_time m2 hw' t1 r =
    Ret (Swtimer.get_time_for_tick_count d
           (sum_ticks since_start mod 2 ^ bits) r, t1).
Proof.
  intros Hinit Hpre Hbind Hstart Hpost.
  destruct (swtimersys_init_inv _ _ _ _ _ _ Hinit)
    as (Hp & Hd & Hb & old & Hold).
  rewrite (swtimersys_init_ok m p d bits None old Hp Hd Hb Hold) in Hinit.
  injection Hinit as <-.
  pose proof (pow2_le_64 bits ltac:(lia)) as HM.
  set (s0 := Swtimersys.mk_swtimersys None 0 d
               (Swtimersys.timer_width_bits old)
               (Swtimersys.create_mask bits)
               (Swtimersys.user_data_p old)) in *.
  assert (Hmask0 : Swtimersys.timer_mask s0 = 2 ^ bits - 1)
    by (cbn; apply create_mask_spec; lia).
  assert (Hinv0 : counter_in_mask s0)
    by (unfold counter_in_mask; rewrite Hmask0; cbn; lia).
  pose proof (tick_all_lookup before_start _ _ p bits s0
                (lookup_insert_eq _ _ _) ltac:(lia) Hmask0 Hinv0 Hpre) as H1.
  set (c1 := (Swtimersys.tick_counter s0 + sum_ticks before_start)
               mod 2 ^ bits) in *.
  assert (Hc1 : 0 <= c1 < 2 ^ bits) by (apply Z.mod_pos_bound; lia).
  set (s1 := Swtimersys.set_tick_counter c1 s0) in *.
  rewrite (swtimer_init_ok m1 p 0 s1 Hp H1) in Hbind. injection Hbind as <-.
  unfold Swtimer.swtimer_start in Hstart.
  cbn [Swtimer.swtimersys_p] in Hstart.
  rewrite (swtimersys_poll_timer_spec m1 hw p s1 Hp H1) in Hstart.
  cbn in Hstart. injection Hstart as <-.
  assert (Hinv1 : counter_in_mask s1)
    by (unfold counter_in_mask; cbn; rewrite create_mask_spec by lia; lia).
  pose proof (tick_all_lookup since_start _ _ p bits s1 H1 ltac:(lia)
                Hmask0 Hinv1 Hpost) as H2.
  unfold Swtimer.swtimer_get_time.
  cbn [Swtimer.swtimersys_p Swtimer.timer_mask Swtimer.start_tick_count
       Swtimer.tick_duration_ns Swtimer.starvation_tracking
       Swtimer.set_starvation_tracking Swtimer.set_start_tick_count
       Swtimer.init_starvation_tracking Swtimer.set_last_tick_count
       Swtimer.invocation_limit Swtimer.invocation_count
       Swtimer.last_tick_count].
  rewrite (swtimersys_poll_timer_spec m2 hw' p _ Hp H2).
  cbn [Swtimersys.poll_cb Swtimersys.set_tick_counter s1 s0
       Swtimersys.tick_counter Swtimersys.timer_mask
       Swtimersys.tick_duration_ns bind].
  rewrite is_timer_starving_disabled by reflexivity.
  cbn [negb assert bind].
  rewrite create_mask_spec by lia.
  rewrite get_elapsed_ticks_ring;
    [|lia|lia|apply Z.mod_pos_bound; lia].
  rewrite Zminus_mod_idemp_l.
  replace (c1 + sum_ticks since_start - c1) with (sum_ticks since_start)
    by lia.
  reflexivity.
Qed.

Lemma measurement_in_tick_mode_witness :
  Swtimer.swtimer_get_time
    (<[sys_addr := Swtimersys.mk_swtimersys None 2 1000 0 255 NULL]>
       fresh_store) (regs_at 0)
    (Swtimer.mk_swtimer sys_addr 250 1000 255 (Swtimer.mk_tracking 0 0 250))
    Swtimer.SWTIMER_US
  = Ret (Swtimer.get_time_for_tick_count 1000 (sum_ticks [5; 3] mod 2 ^ 8)
           Swtimer.SWTIMER_US,
         Swtimer.mk_swtimer sys_addr 250 1000 255
           (Swtimer.mk_tracking 0 0 250)).
Proof.
  apply (measurement_in_tick_mode fresh_store configured_store
           (<[sys_addr := Swtimersys.mk_swtimersys None 250 1000 0 255 NULL]>
              fresh_store)
           _ sys_addr 1000 8 Swtimer.SWTIMER_US [250] [5; 3]
           (regs_at 0) (regs_at 0) (bound_timer 0));
    vm_compute; reflexivity.
Defined.

(** ** What can end a run *)

Lemma exec_call_progress (c : call) (m : Swtimersys.store)
    (t : Swtimer.swtimer_t) :
  bound_in m t -> call_allowed m c ->
  (exists m' t', exec_call c (m, t) = Ret (m', t') /\ bound_in m' t' /\
                 forall q, is_Some (m !! q) -> is_Some (m' !! q)) \/
  exec_call c (m, t) = Abort Assert_not_starving.
Proof.
  intros [Hp [s Hs]] Hc. destruct c as [hw|hw r|q n]; cbn [exec_call fst snd].
  - left. unfold Swtimer.swtimer_start.
    rewrite (swtimersys_poll_timer_spec m hw _ s Hp Hs). cbn [bind].
    eexists. eexists. split; [reflexivity|]. split; [|auto].
    split; cbn; [exact Hp | now exists s].
  - unfold Swtimer.swtimer_get_time.
    rewrite (swtimersys_poll_timer_spec m hw _ s Hp Hs). cbn [bind].
    destruct (Swtimer.is_timer_starving _ _) as [starving st].
    destruct starving; cbn [negb assert bind]; [now right|].
    left. eexists. eexists. split; [reflexivity|]. split; [|auto].
    split; cbn; [exact Hp | now exists s].
  - left. destruct Hc as (Hq & Hn & sq & Hsq).
    rewrite (swtimersys_tick_ok m q n sq Hq Hn Hsq). cbn [bind].
    assert (Hdom : forall q', is_Some (m !! q') ->
              is_Some ((<[q := ticked sq n]> m : Swtimersys.store) !! q')).
    { intros q' Hq'. destruct (Z.eq_dec q q') as [<-|Hne].
      - rewrite lookup_insert_eq. eauto.
      - now rewrite lookup_insert_ne. }
    eexists. eexists. split; [reflexivity|]. split; [|exact Hdom].
    split; [exact Hp|]. apply Hdom. now exists s.
Qed.

Lemma exec_progress (cs : list call) :
  forall (m : Swtimersys.store) (t : Swtimer.swtimer_t),
  bound_in m t -> Forall (call_allowed m) cs ->
  (exists st, exec cs (m, t) = Ret st) \/
  exec cs (m, t) = Abort Assert_not_starving.
Proof.
  induction cs as [|c cs IH]; intros m t Hb Hall; cbn [exec].
  - left. eauto.
  - apply Forall_cons in Hall as [Hc Hall].
    destruct (exec_call_progress c m t Hb Hc)
      as [(m' & t' & -> & Hb' & Hdom)| ->]; cbn [bind]; [|now right].
    apply IH; [exact Hb'|].
    eapply Forall_impl; [exact Hall|].
    intros [hw|hw r|q n]; cbn; auto.
    intros (Hq & Hn & Hsome). auto.
Qed.

(** X18. Once [swtimer_init] has returned, a sequence of starts, queries and
    ticks (each tick on an existing timer system by a non-zero count) can
    only end early on the starvation assertion; with invocation limit 0 it
    runs to its end. *)
Theorem bound_timer_runs (m : Swtimersys.store) (p limit : Z)
    (t : Swtimer.swtimer_t) (cs : list call) :
  Swtimer.swtimer_init m p limit = Ret t ->
  Forall (call_allowed m) cs ->
  ((exists st, exec cs (m, t) = Ret st) \/
   exec cs (m, t) = Abort Assert_not_starving) /\
  (limit = 0 -> exists st, exec cs (m, t) = Ret st).
Proof.
  intros Hinit Hall.
  destruct (swtimer_init_inv _ _ _ _ Hinit) as (Hp & s & Hs).
  destruct (swtimer_init_limit _ _ _ _ Hinit) as (Hlim & _ & Hpt).
  assert (Hb : bound_in m t).
  { unfold bound_in. rewrite Hpt. split; [exact Hp | now exists s]. }
  pose proof (exec_progress cs m t Hb Hall) as Hrun.
  split; [exact Hrun|].
  intros ->. destruct Hrun as [Hret|Habort]; [exact Hret|].
  pose proof (exec_disabled cs m t Hlim) as Hno.
  rewrite Habort in Hno. discriminate.
Qed.

Lemma bound_timer_runs_witness :
  exists st,
    exec [advance 7; start; query; query; advance 250; query]
         (configured_store, bound_timer 0) = Ret st.
Proof.
  refine (proj2 (bound_timer_runs configured_store sys_addr 0 (bound_timer 0)
                   [advance 7; start; query; query; advance 250; query]
                   _ _) eq_refl).
  - vm_compute. reflexivity.
  - assert (Hadv : forall n, n <> 0 -> call_allowed configured_store (advance n)).
    { intros n Hn. split; [vm_compute; discriminate|]. split; [exact Hn|].
      vm_compute. eauto. }
    repeat match goal with
           | |- Forall _ _ => constructor
           end; try exact I; apply Hadv; lia.
Defined.

(** X19. End to end in poll mode.  A timer with starvation tracking disabled is
    bound to a timer system with a poll callback and started while the
    callback reads [c1]; a query made while the callback reads [c2] returns
    the conversion of [(c2 - c1) mod 2^w], for readings below [2^w], and
    leaves the timer as it was; ticks play no part. *)
Theorem measurement_in_poll_mode (m : Swtimersys.store) (p w r c1 c2 : Z)
    (s : Swtimersys.swtimersys_t) (cb : Swtimersys.swtimersys_poll_callback_t)
    (hw1 hw2 : hw_regs) (t0 t1 : Swtimer.swtimer_t) :
  m !! p = Some s -> Swtimersys.poll_cb s = Some cb ->
  0 <= w <= 64 -> Swtimersys.timer_mask s = 2 ^ w - 1 ->
  cb (Swtimersys.user_data_p s) hw1 = c1 -> 0 <= c1 < 2 ^ w ->
  cb (Swtimersys.user_data_p s) hw2 = c2 -> 0 <= c2 < 2 ^ w ->
  Swtimer.swtimer_init m p 0 = Ret t0 ->
  Swtimer.swtimer_start m hw1 t0 = Ret t1 ->
  Swtimer.swtimer_get_time m hw2 t1 r =
    Ret (Swtimer.get_time_for_tick_count (Swtimersys.tick_duration_ns s)
           ((c2 - c1) mod 2 ^ w) r, t1).
Proof.
  intros Hm Hcb Hw Hmask H1 Hc1 H2 Hc2 Hbind Hstart.
  pose proof (pow2_le_64 w Hw) as HM.
  destruct (swtimer_init_inv _ _ _ _ Hbind) as (Hp & _).
  rewrite (swtimer_init_ok m p 0 s Hp Hm) in Hbind. injection Hbind as <-.
  unfold Swtimer.swtimer_start in Hstart.
  cbn [Swtimer.swtimersys_p] in Hstart.
  rewrite (swtimersys_poll_timer_spec m hw1 p s Hp Hm), Hcb, H1 in Hstart.
  rewrite wrap64_small in Hstart by lia.
  cbn in Hstart. injection Hstart as <-.
  unfold Swtimer.swtimer_get_time.
  cbn [Swtimer.swtimersys_p Swtimer.timer_mask Swtimer.start_tick_count
       Swtimer.tick_duration_ns Swtimer.starvation_tracking
       Swtimer.set_starvation_tracking Swtimer.set_start_tick_count
       Swtimer.init_starvation_tracking Swtimer.set_last_tick_count
       Swtimer.invocation_limit Swtimer.invocation_count
       Swtimer.last_tick_count].
  rewrite (swtimersys_poll_timer_spec m hw2 p s Hp Hm), Hcb, H2.
  rewrite wrap64_small by lia. cbn [bind].
  rewrite is_timer_starving_disabled by reflexivity.
  cbn [negb assert bind].
  rewrite Hmask, get_elapsed_ticks_ring by lia.
  reflexivity.
Qed.

Lemma measurement_in_poll_mode_witness :
  Swtimer.swtimer_get_time
    (<[sys_addr := Swtimersys.mk_swtimersys (Some poll_register) 0 1000 0 255
                     64]> fresh_store) (regs_at 2)
    (Swtimer.mk_swtimer sys_addr 250 1000 255 (Swtimer.mk_tracking 0 0 250))
    Swtimer.SWTIMER_US
  = Ret (Swtimer.get_time_for_tick_count 1000 ((2 - 250) mod 2 ^ 8)
           Swtimer.SWTIMER_US,
         Swtimer.mk_swtimer sys_addr 250 1000 255
           (Swtimer.mk_tracking 0 0 250)).
Proof.
  pose (s := Swtimersys.mk_swtimersys (Some poll_register) 0 1000 0 255 64).
  pose (m := (<[sys_addr := s]> fresh_store : Swtimersys.store)).
  apply (measurement_in_poll_mode m sys_addr 8 Swtimer.SWTIMER_US 250 2 s
           poll_register (regs_at 250) (regs_at 2) (bound_timer 0)).
  - vm_compute. reflexivity.
  - reflexivity.
  - lia.
  - reflexivity.
  - reflexivity.
  - lia.
  - reflexivity.
  - lia.
  - vm_compute. reflexivity.
  - vm_compute. reflexivity.
Defined.
